(** * AS5600 magnetic rotary-position sensor driver over a software two-wire bus

    A shallow embedding of [src/AS5600_softwire.cpp] (class
    [AMS_5600_SOFTWIRE]) and the properties of its register protocol and of
    its one-time-programming guards.

    Target model.  The driver is Arduino code; it is embedded for the
    classic 8-bit AVR boards, where [int] is a 16-bit signed integer, [word]
    is [unsigned int] (16 bits), [uint8_t] is one byte and [double] is the
    IEEE-754 single-precision format.  Integers are values of [Z] with the
    wrap-around written out; floating-point values are [spec_float]s of the
    standard library's executable IEEE-754 specification.

    Bus model.  A driver call is a function from the state of the bus to a
    result and a new state, or to nothing when the call is stuck in a
    busy-wait loop.  The state holds the registers of the sensor, the
    buffers of the transport and the history of the bus: every register
    write, every read with the bytes it returned, every delay.  The
    registers change only when they are written. *)

From Stdlib Require Import ZArith List Bool Lia.
From Stdlib Require Import Floats.SpecFloat.
Import ListNotations.
Open Scope Z_scope.

(** ** Machine integers *)

(** Conversion to [uint8_t]. *)
Definition to_uint8 (x : Z) : Z := x mod 256.

(** Conversion to [word] (16-bit unsigned). *)
Definition to_word (x : Z) : Z := x mod 65536.

(** Reduction to the 16-bit two's complement range of [int]. *)
Definition to_int (x : Z) : Z := (x + 32768) mod 65536 - 32768.

(** Arduino's [highByte(w)] is [(uint8_t)((w) >> 8)]. *)
Definition highByte (w : Z) : Z := to_uint8 (Z.shiftr w 8).

(** Arduino's [lowByte(w)] is [(uint8_t)((w) & 0xff)]. *)
Definition lowByte (w : Z) : Z := to_uint8 (Z.land w 0xff).

(** The expression [(highByte << 8) | lowByte] on two [int]s, returned as a
    [word]. *)
Definition word_of_bytes (hi lo : Z) : Z :=
  to_word (Z.lor (to_int (Z.shiftl hi 8)) lo).

(** ** Floating point: the test [_maxAngle * 0.087 < 18] *)

Module Float.
Section Format.
(** [prec] mantissa bits (with the implicit one), [emax] exponent bound. *)
Variables prec emax : Z.

(** An integer converted to the format, rounding to nearest even. *)
Definition of_Z (z : Z) : spec_float := binary_normalize prec emax z 0 false.

(** The literal [0.087]: the decimal 87/1000 correctly rounded. *)
Definition lit_0_087 : spec_float := SFdiv prec emax (of_Z 87) (of_Z 1000).

(** [w * 0.087 < 18] for a [word] [w]: both integer operands are converted
    to the floating type, the product is rounded, the comparison is
    exact. *)
Definition below_18_degrees (w : Z) : bool :=
  SFltb (SFmul prec emax (of_Z w) lit_0_087) (of_Z 18).
End Format.

(** [double] on AVR (IEEE-754 binary32). *)
Definition avr_below_18_degrees : Z -> bool := below_18_degrees 24 128.

(** [double] on the 32-bit boards (IEEE-754 binary64). *)
Definition b64_below_18_degrees : Z -> bool := below_18_degrees 53 1024.
End Float.

(** ** The transport: bus, sensor registers and what the bus has seen *)

(** What an observer of the bus sees the driver do. *)
Inductive Event : Type :=
| EvWrite (reg data : Z)            (* one data byte stored at a register *)
| EvRead (reg : Z) (data : list Z)  (* bytes fetched, starting at a register *)
| EvDelay (ms : Z).                 (* the host waited *)

(** Modelled from the spec: the bit-banged two-wire transport (class
    [SoftWire]) and the sensor behind it are external collaborators whose
    code is not part of the sources; section 6 of the specification gives
    the transport contract ([beginTransmission], [write], [endTransmission],
    [requestFrom], [available], [read]).  The sensor is a register file
    with an 8-bit address pointer that advances after every byte; it
    answers only when addressed at [dev_addr]. *)
Record Bus : Type := mkBus {
  regs : Z -> Z;        (* sensor register file *)
  dev_addr : Z;         (* bus address the sensor answers on *)
  ptr : Z;              (* sensor address pointer *)
  target : Z;           (* address of the open write transaction *)
  txbuf : list Z;       (* bytes queued for the open write transaction *)
  rxbuf : list Z;       (* bytes received and not yet consumed *)
  trace : list Event    (* history of the bus, oldest first *)
}.

(** Register file update. *)
Definition upd (r : Z -> Z) (a v : Z) : Z -> Z :=
  fun a' => if a' =? a then v else r a'.

(** The sensor stores the data bytes of a write transaction at consecutive
    registers. *)
Fixpoint store_bytes (r : Z -> Z) (p : Z) (ds : list Z)
  : (Z -> Z) * Z * list Event :=
  match ds with
  | [] => (r, p, [])
  | d :: ds' =>
      let '(r', p', evs) := store_bytes (upd r p d) (to_uint8 (p + 1)) ds' in
      (r', p', EvWrite p d :: evs)
  end.

(** The sensor sends [n] bytes from consecutive registers. *)
Fixpoint fetch_bytes (r : Z -> Z) (p : Z) (n : nat) : list Z * Z :=
  match n with
  | O => ([], p)
  | S n' =>
      let '(bs, p') := fetch_bytes r (to_uint8 (p + 1)) n' in
      (to_uint8 (r p) :: bs, p')
  end.

(** Computations over the bus that may never return: [None] stands for a
    call stuck in a busy-wait loop. *)
Definition M (A : Type) : Type := Bus -> option (A * Bus).

Definition ret {A : Type} (a : A) : M A := fun s => Some (a, s).

Definition bind {A B : Type} (m : M A) (f : A -> M B) : M B :=
  fun s => match m s with
           | Some (a, s') => f a s'
           | None => None
           end.

Declare Scope bus_scope.
Delimit Scope bus_scope with bus.
Notation "x <- m ;; k" := (bind m (fun x => k))
  (at level 61, m at next level, right associativity) : bus_scope.
Notation "m ;; k" := (bind m (fun _ => k))
  (at level 61, right associativity) : bus_scope.
Open Scope bus_scope.

Module SoftWire.

Definition beginTransmission (address : Z) : M unit := fun s =>
  Some (tt, mkBus (regs s) (dev_addr s) (ptr s) address [] (rxbuf s) (trace s)).

(** [write(uint8_t data)] queues one byte. *)
Definition write (data : Z) : M unit := fun s =>
  Some (tt, mkBus (regs s) (dev_addr s) (ptr s) (target s)
                  (txbuf s ++ [to_uint8 data]) (rxbuf s) (trace s)).

(** The queued bytes go out: the first one loads the address pointer, the
    others are stored.  A sensor that is not addressed sees nothing. *)
Definition endTransmission : M unit := fun s =>
  if target s =? dev_addr s then
    match txbuf s with
    | [] => Some (tt, s)
    | p :: ds =>
        let '(r', p', evs) := store_bytes (regs s) p ds in
        Some (tt, mkBus r' (dev_addr s) p' (target s) [] (rxbuf s)
                        (trace s ++ evs))
    end
  else
    Some (tt, mkBus (regs s) (dev_addr s) (ptr s) (target s) [] (rxbuf s)
                    (trace s)).

(** The receive buffer is refilled with [quantity] bytes, or left empty
    when nothing answers at [address]. *)
Definition requestFrom (address quantity : Z) : M unit := fun s =>
  if address =? dev_addr s then
    let '(bs, p') := fetch_bytes (regs s) (ptr s) (Z.to_nat quantity) in
    Some (tt, mkBus (regs s) (dev_addr s) p' (target s) (txbuf s) bs
                    (trace s ++ [EvRead (ptr s) bs]))
  else
    Some (tt, mkBus (regs s) (dev_addr s) (ptr s) (target s) (txbuf s) []
                    (trace s)).

Definition available : M Z := fun s =>
  Some (Z.of_nat (length (rxbuf s)), s).

(** [read()] consumes one received byte, or yields -1 when there is none. *)
Definition read : M Z := fun s =>
  match rxbuf s with
  | [] => Some (-1, s)
  | b :: bs =>
      Some (b, mkBus (regs s) (dev_addr s) (ptr s) (target s) (txbuf s) bs
                     (trace s))
  end.

End SoftWire.

(** Arduino's [delay(ms)]. *)
Definition delay (ms : Z) : M unit := fun s =>
  Some (tt, mkBus (regs s) (dev_addr s) (ptr s) (target s) (txbuf s) (rxbuf s)
                  (trace s ++ [EvDelay ms])).

(** [while (c(sw.available())) ;] with at most [fuel] evaluations of the
    condition. *)
Fixpoint busy_wait (fuel : nat) (c : Z -> bool) : M unit :=
  match fuel with
  | O => fun _ => None
  | S fuel' =>
      n <- SoftWire.available ;;
      if c n then busy_wait fuel' c else ret tt
  end.

(** ** The driver *)

(** Modelled from the spec: the register addresses and the bus address of
    the sensor are constants of the header [AS5600_softwire.h], which is not
    part of the sources; section 3 of the specification calls them
    compile-time constants.  The driver is embedded over any choice of
    them. *)
Class RegisterMap : Type := {
  _ams5600_Address : Z;
  _addr_status : Z;
  _addr_agc : Z;
  _addr_burn : Z;
  _addr_zmco : Z;
  _addr_zpos : Z;
  _addr_mpos : Z;
  _addr_mang : Z;
  _addr_conf : Z;
  _addr_raw_angle : Z;
  _addr_angle : Z;
  _addr_magnitude : Z
}.

Section Driver.
Context {rm : RegisterMap}.

(** Bound on the number of times a busy-wait loop tests its condition. *)
Variable fuel : nat.

Definition readOneByte (in_adr : Z) : M Z :=
  SoftWire.beginTransmission _ams5600_Address ;;
  SoftWire.write in_adr ;;
  SoftWire.endTransmission ;;
  SoftWire.requestFrom _ams5600_Address 1 ;;
  busy_wait fuel (fun n => n =? 0) ;;
  retVal <- SoftWire.read ;;
  ret retVal.

Definition readTwoBytesTogether (addr_in : Z) : M Z :=
  SoftWire.beginTransmission _ams5600_Address ;;
  SoftWire.write addr_in ;;
  SoftWire.endTransmission ;;
  SoftWire.requestFrom _ams5600_Address 2 ;;
  busy_wait fuel (fun n => n <? 2) ;;
  hi <- SoftWire.read ;;
  lo <- SoftWire.read ;;
  ret (word_of_bytes hi lo).

Definition readTwoBytesSeparately (addr_in : Z) : M Z :=
  hi <- readOneByte addr_in ;;
  lo <- readOneByte (addr_in + 1) ;;
  ret (word_of_bytes hi lo).

Definition writeOneByte (adr_in dat_in : Z) : M unit :=
  SoftWire.beginTransmission _ams5600_Address ;;
  SoftWire.write adr_in ;;
  SoftWire.write dat_in ;;
  SoftWire.endTransmission.

Definition setOutPut (mode : Z) : M unit :=
  let _conf_lo := _addr_conf + 1 in
  config_status <- readOneByte _conf_lo ;;
  let config_status := to_uint8 config_status in
  let config_status := Z.land config_status 0xCF in  (* 0b11001111 *)
  let config_status :=
    if mode =? 0 then Z.lor config_status 0x20       (* 0b100000 *)
    else if mode =? 2 then Z.lor config_status 0x10  (* 0b010000 *)
    else config_status in
  writeOneByte _conf_lo config_status.

Definition getAddress : Z := _ams5600_Address.

Definition getRawAngle : M Z := readTwoBytesTogether _addr_raw_angle.

Definition getScaledAngle : M Z := readTwoBytesTogether _addr_angle.

(** [newMaxAngle == -1] compares a [word] with an [int]: the [int] is
    converted to [unsigned int]. *)
Definition setMaxAngle (newMaxAngle : Z) : M Z :=
  _maxAngle <- (if newMaxAngle =? to_word (-1) then getRawAngle
                else ret newMaxAngle) ;;
  writeOneByte _addr_mang (highByte _maxAngle) ;;
  delay 2 ;;
  writeOneByte (_addr_mang + 1) (lowByte _maxAngle) ;;
  delay 2 ;;
  retVal <- readTwoBytesSeparately _addr_mang ;;
  ret retVal.

Definition getMaxAngle : M Z := readTwoBytesSeparately _addr_mang.

Definition setStartPosition (startAngle : Z) : M Z :=
  _rawStartAngle <- (if startAngle =? to_word (-1) then getRawAngle
                     else ret startAngle) ;;
  writeOneByte _addr_zpos (highByte _rawStartAngle) ;;
  delay 2 ;;
  writeOneByte (_addr_zpos + 1) (lowByte _rawStartAngle) ;;
  delay 2 ;;
  _zPosition <- readTwoBytesSeparately _addr_zpos ;;
  ret _zPosition.

Definition getStartPosition : M Z := readTwoBytesSeparately _addr_zpos.

Definition setEndPosition (endAngle : Z) : M Z :=
  _rawEndAngle <- (if endAngle =? to_word (-1) then getRawAngle
                   else ret endAngle) ;;
  writeOneByte _addr_mpos (highByte _rawEndAngle) ;;
  delay 2 ;;
  writeOneByte (_addr_mpos + 1) (lowByte _rawEndAngle) ;;
  delay 2 ;;
  _mPosition <- readTwoBytesSeparately _addr_mpos ;;
  ret _mPosition.

Definition getEndPosition : M Z :=
  retVal <- readTwoBytesSeparately _addr_mpos ;;
  ret retVal.

Definition detectMagnet : M Z :=
  magStatus <- readOneByte _addr_status ;;
  ret (if Z.land magStatus 0x20 =? 0 then 0 else 1).

Definition getMagnetStrength : M Z :=
  magStatus <- readOneByte _addr_status ;;
  ret (if Z.land magStatus 0x20 =? 0 then 0
       else if Z.land magStatus 0x10 =? 0 then
              if Z.land magStatus 0x08 =? 0 then 2 else 3
            else 1).

Definition getAgc : M Z := readOneByte _addr_agc.

Definition getMagnitude : M Z := readTwoBytesTogether _addr_magnitude.

Definition getConf : M Z := readTwoBytesSeparately _addr_conf.

Definition setConf (_conf : Z) : M unit :=
  writeOneByte _addr_conf (highByte _conf) ;;
  delay 2 ;;
  writeOneByte (_addr_conf + 1) (lowByte _conf) ;;
  delay 2.

Definition getBurnCount : M Z := readOneByte _addr_zmco.

(** Result codes: 1 success, -1 no magnet, -2 burn limit exceeded,
    -3 start and end positions not set. *)
Definition burnAngle : M Z :=
  _zPosition <- getStartPosition ;;
  _mPosition <- getEndPosition ;;
  _maxAngle <- getMaxAngle ;;
  detected <- detectMagnet ;;
  if detected =? 1 then
    count <- getBurnCount ;;
    if count <? 3 then
      if (_zPosition =? 0) && (_mPosition =? 0) then ret (-3)
      else writeOneByte _addr_burn 0x80 ;; ret 1
    else ret (-2)
  else ret (-1).

(** Result codes: 1 success, -1 burn limit exceeded, -2 max angle below
    18 degrees. *)
Definition burnMaxAngleAndConfig : M Z :=
  _maxAngle <- getMaxAngle ;;
  count <- getBurnCount ;;
  if count =? 0 then
    if Float.avr_below_18_degrees _maxAngle then ret (-2)
    else writeOneByte _addr_burn 0x40 ;; ret 1
  else ret (-1).

End Driver.

(** ** Observations on a bus state and on a run *)

Section Observations.
Context {rm : RegisterMap}.

(** A sensor answers at the address the driver talks to. *)
Definition attached (s : Bus) : Prop := dev_addr s = _ams5600_Address.

(** The byte the sensor holds in register [a]. *)
Definition reg (s : Bus) (a : Z) : Z := to_uint8 (regs s (to_uint8 a)).

(** The value of the register pair at [a]: high byte at [a], low byte at
    [a + 1]. *)
Definition reg16 (s : Bus) (a : Z) : Z := reg s a * 256 + reg s (a + 1).

(** The register writes among some bus events. *)
Definition writes (evs : list Event) : list (Z * Z) :=
  flat_map (fun e => match e with
                     | EvWrite a d => [(a, d)]
                     | _ => []
                     end) evs.

(** The value a computation returns from state [s], if it returns. *)
Definition result {A : Type} (m : M A) (s : Bus) : option A :=
  match m s with
  | Some (a, _) => Some a
  | None => None
  end.

(** The bus events a computation adds to the history of [s]. *)
Definition new_events {A : Type} (m : M A) (s : Bus) : option (list Event) :=
  match m s with
  | Some (_, s') => Some (skipn (length (trace s)) (trace s'))
  | None => None
  end.

(** The register writes a computation performs from state [s]. *)
Definition new_writes {A : Type} (m : M A) (s : Bus)
  : option (list (Z * Z)) :=
  match new_events m s with
  | Some evs => Some (writes evs)
  | None => None
  end.

(** The state after the sensor sent [bs] from register [p] on. *)
Definition seen_read (s : Bus) (p : Z) (bs : list Z) (p' : Z) : Bus :=
  mkBus (regs s) (dev_addr s) p' _ams5600_Address [] []
        (trace s ++ [EvRead p bs]).

(** The state after a single-byte read of register [a]. *)
Definition seen_byte_read (s : Bus) (a : Z) : Bus :=
  seen_read s (to_uint8 a) [reg s a] (to_uint8 (to_uint8 a + 1)).

(** The state after two single-byte reads, of [a] and of [a + 1]. *)
Definition seen_pair_read (s : Bus) (a : Z) : Bus :=
  seen_byte_read (seen_byte_read s a) (a + 1).

(** The state after one two-byte read starting at register [a]. *)
Definition seen_word_read (s : Bus) (a : Z) : Bus :=
  seen_read s (to_uint8 a) [reg s a; reg s (a + 1)]
            (to_uint8 (to_uint8 (a + 1) + 1)).

(** The state after the sensor stored [d] at register [p]. *)
Definition seen_write (s : Bus) (p d : Z) : Bus :=
  mkBus (upd (regs s) p d) (dev_addr s) (to_uint8 (p + 1)) _ams5600_Address
        [] (rxbuf s) (trace s ++ [EvWrite p d]).

(** The state after a [delay]. *)
Definition seen_delay (s : Bus) (ms : Z) : Bus :=
  mkBus (regs s) (dev_addr s) (ptr s) (target s) (txbuf s) (rxbuf s)
        (trace s ++ [EvDelay ms]).

(** Bus traffic of a two-register write of [x] at [a]: high byte, settle
    delay, low byte, settle delay. *)
Definition pair_write (a x : Z) : list Event :=
  [EvWrite (to_uint8 a) (highByte x); EvDelay 2;
   EvWrite (to_uint8 (a + 1)) (lowByte x); EvDelay 2].

(** Bus traffic of a two-register write followed by the read-back of the
    pair, which yields the bytes [h] and [l]. *)
Definition write_then_read_back (a x h l : Z) (evs : list Event) : Prop :=
  evs = pair_write a x
        ++ [EvRead (to_uint8 a) [h]; EvRead (to_uint8 (a + 1)) [l]].

(** A run of [m] that, after the traffic [pre], writes [x] to the pair at
    [a], reads the pair back and returns what it then holds. *)
Definition commits_and_reads_back (m : M Z) (s : Bus) (pre : list Event)
           (a x : Z) : Prop :=
  exists s' h l evs,
    m s = Some (Z.lor (Z.shiftl h 8) l, s')
    /\ h = reg s' a /\ l = reg s' (a + 1)
    /\ trace s' = trace s ++ pre ++ evs
    /\ write_then_read_back a x h l evs.

(** Bus traffic of capturing the raw angle, when the sentinel asks for
    it. *)
Definition capture (s : Bus) (v : Z) : list Event :=
  if v =? 0xFFFF
  then [EvRead (to_uint8 _addr_raw_angle)
               [reg s _addr_raw_angle; reg s (_addr_raw_angle + 1)]]
  else [].

(** The value a sentinel-aware set operation writes for the argument
    [v]. *)
Definition value_to_write (s : Bus) (v : Z) : Z :=
  if v =? 0xFFFF then reg16 s _addr_raw_angle else v.
End Observations.

(** Exhaustive test of a predicate on the integers below [2 ^ k]. *)
Fixpoint forall_bits (k : nat) (P : Z -> bool) : bool :=
  match k with
  | O => P 0
  | S k' => forall_bits k' (fun x => P (2 * x))
            && forall_bits k' (fun x => P (2 * x + 1))
  end.

(** ** A concrete sensor, for the examples *)

(** Register addresses of the AS5600 data sheet. *)
Definition as5600 : RegisterMap := {|
  _ams5600_Address := 0x36;
  _addr_status := 0x0b;
  _addr_agc := 0x1a;
  _addr_burn := 0xff;
  _addr_zmco := 0x00;
  _addr_zpos := 0x01;
  _addr_mpos := 0x03;
  _addr_mang := 0x05;
  _addr_conf := 0x07;
  _addr_raw_angle := 0x0c;
  _addr_angle := 0x0e;
  _addr_magnitude := 0x1b
|}.

(** A register file given by the registers that are not zero. *)
Fixpoint regs_of (l : list (Z * Z)) : Z -> Z :=
  match l with
  | [] => fun _ => 0
  | (a, v) :: l' => upd (regs_of l') a v
  end.

(** An idle bus with a sensor at address 0x36 holding the given bytes. *)
Definition sensor (l : list (Z * Z)) : Bus :=
  mkBus (regs_of l) 0x36 0 0 [] [] [].

(** Magnet detected (status 0x20), raw angle 0x0A3C, start position 0x0100,
    max angle 0x0400, config low byte 0x2F, nothing burnt yet. *)
Definition sensor_ready : Bus :=
  sensor [(0x0b, 0x20); (0x0c, 0x0A); (0x0d, 0x3C); (0x01, 0x01);
          (0x05, 0x04); (0x08, 0x2F)].

(** The same sensor with no magnet in front of it. *)
Definition sensor_no_magnet : Bus :=
  sensor [(0x0c, 0x0A); (0x0d, 0x3C); (0x01, 0x01); (0x05, 0x04);
          (0x08, 0x2F)].

(** The same sensor after one burn. *)
Definition sensor_burnt_once : Bus :=
  sensor [(0x00, 0x01); (0x0b, 0x20); (0x0c, 0x0A); (0x0d, 0x3C);
          (0x01, 0x01); (0x05, 0x04); (0x08, 0x2F)].

(** The same registers on a bus where nothing answers at the driver's
    address 0x36. *)
Definition sensor_absent : Bus :=
  mkBus (regs sensor_ready) 0x40 0 0 [] [] [].

(** A sensor of a finer resolution: the raw angle reads 0x1A3C. *)
Definition sensor_fine : Bus :=
  sensor [(0x0b, 0x20); (0x0c, 0x1A); (0x0d, 0x3C)].

(** ** Further observations *)

Section MoreObservations.
Context {rm : RegisterMap}.

(** The state after a write transaction that nothing acknowledged. *)
Definition seen_nothing (s : Bus) : Bus :=
  mkBus (regs s) (dev_addr s) (ptr s) _ams5600_Address [] (rxbuf s) (trace s).

(** The config low byte [L] with the output-mode field set for [mode], as
    [setOutPut] computes it. *)
Definition with_outmode (L mode : Z) : Z :=
  Z.lor (Z.land L 0xCF)
        (if mode =? 0 then 0x20 else if mode =? 2 then 0x10 else 0).

(** The operations that only read. *)
Definition getters (fuel : nat) : list (M Z) :=
  [getRawAngle fuel; getScaledAngle fuel; getMagnitude fuel; getAgc fuel;
   getConf fuel; getMaxAngle fuel; getStartPosition fuel;
   getEndPosition fuel; getBurnCount fuel; detectMagnet fuel;
   getMagnetStrength fuel].

(** The operations that read and may write. *)
Definition read_modify_operations (fuel : nat) (v : Z) : list (M Z) :=
  [setMaxAngle fuel v; setStartPosition fuel v; setEndPosition fuel v;
   burnAngle fuel; burnMaxAngleAndConfig fuel].
End MoreObservations.

(** * Facts *)

(** ** Machine integers *)

Lemma to_uint8_range (x : Z) : 0 <= to_uint8 x < 256.
Proof. unfold to_uint8. apply Z.mod_pos_bound. lia. Qed.

Lemma to_uint8_small (x : Z) : 0 <= x < 256 -> to_uint8 x = x.
Proof. intro H. unfold to_uint8. now apply Z.mod_small. Qed.

Lemma to_uint8_succ (a : Z) : to_uint8 (to_uint8 a + 1) = to_uint8 (a + 1).
Proof. unfold to_uint8. now rewrite Zplus_mod_idemp_l. Qed.

Lemma to_uint8_succ_neq (a : Z) : to_uint8 (a + 1) <> to_uint8 a.
Proof.
  unfold to_uint8. intro H.
  assert (E : (a + 1 - a) mod 256 = 0).
  { rewrite Zminus_mod, H, Z.sub_diag. reflexivity. }
  replace (a + 1 - a) with 1 in E by lia. discriminate E.
Qed.

Lemma forall_bits_sound (k : nat) (P : Z -> bool) :
  forall_bits k P = true ->
  forall x, 0 <= x < 2 ^ Z.of_nat k -> P x = true.
Proof.
  revert P. induction k as [|k IH]; intros P H x Hx.
  - simpl in *. replace x with 0 by lia. exact H.
  - cbn [forall_bits] in H. apply andb_true_iff in H. destruct H as [He Ho].
    rewrite Nat2Z.inj_succ, Z.pow_succ_r in Hx by lia.
    assert (Hq : 0 <= x / 2 < 2 ^ Z.of_nat k).
    { split; [apply Z.div_pos; lia | apply Z.div_lt_upper_bound; lia]. }
    pose proof (Z.div_mod x 2 ltac:(lia)) as E.
    pose proof (Z.mod_pos_bound x 2 ltac:(lia)) as B.
    destruct (Z.eq_dec (x mod 2) 0) as [Z0|Z1].
    + specialize (IH _ He _ Hq). cbv beta in IH.
      replace (2 * (x / 2)) with x in IH by lia. exact IH.
    + specialize (IH _ Ho _ Hq). cbv beta in IH.
      replace (2 * (x / 2) + 1) with x in IH by lia. exact IH.
Qed.

(** Every property of bytes that a boolean test decides holds once the test
    passes on the 256 bytes; likewise for 16-bit words. *)
Lemma forall_byte (P : Z -> bool) :
  forall_bits 8 P = true -> forall x, 0 <= x < 256 -> P x = true.
Proof. intros H x Hx. now apply (forall_bits_sound 8). Qed.

Lemma forall_word (P : Z -> bool) :
  forall_bits 16 P = true -> forall x, 0 <= x < 65536 -> P x = true.
Proof. intros H x Hx. now apply (forall_bits_sound 16). Qed.

Lemma word_of_bytes_lor (h l : Z) :
  0 <= h < 256 -> 0 <= l < 256 ->
  word_of_bytes h l = Z.lor (Z.shiftl h 8) l.
Proof.
  intros Hh Hl. apply Z.eqb_eq. revert l Hl. apply forall_byte.
  revert h Hh. apply forall_byte. vm_compute. reflexivity.
Qed.

Lemma word_of_bytes_sum (h l : Z) :
  0 <= h < 256 -> 0 <= l < 256 -> word_of_bytes h l = h * 256 + l.
Proof.
  intros Hh Hl. apply Z.eqb_eq. revert l Hl. apply forall_byte.
  revert h Hh. apply forall_byte. vm_compute. reflexivity.
Qed.

Lemma bytes_of_word (w : Z) :
  0 <= w < 65536 -> highByte w * 256 + lowByte w = w.
Proof.
  intro Hw. apply Z.eqb_eq. revert w Hw. apply forall_word.
  vm_compute. reflexivity.
Qed.

Lemma highByte_range (w : Z) : 0 <= highByte w < 256.
Proof. apply to_uint8_range. Qed.

Lemma lowByte_range (w : Z) : 0 <= lowByte w < 256.
Proof. apply to_uint8_range. Qed.

(** The three status tests of the driver read single bits. *)
Lemma status_bits (b : Z) :
  0 <= b < 256 ->
  (Z.land b 0x20 =? 0) = negb (Z.testbit b 5)
  /\ (Z.land b 0x10 =? 0) = negb (Z.testbit b 4)
  /\ (Z.land b 0x08 =? 0) = negb (Z.testbit b 3).
Proof.
  intro Hb.
  assert (H : (Bool.eqb (Z.land b 0x20 =? 0) (negb (Z.testbit b 5))
               && Bool.eqb (Z.land b 0x10 =? 0) (negb (Z.testbit b 4))
               && Bool.eqb (Z.land b 0x08 =? 0) (negb (Z.testbit b 3)))%bool
              = true).
  { revert b Hb. apply forall_byte. vm_compute. reflexivity. }
  apply andb_true_iff in H. destruct H as [H H3].
  apply andb_true_iff in H. destruct H as [H5 H4].
  repeat split; now apply eqb_prop.
Qed.

(** ** Floating point *)

Lemma avr_lit_0_087 :
  Float.lit_0_087 24 128 = S754_finite false 11676942 (-27).
Proof. vm_compute. reflexivity. Qed.

(** That value is the single-precision number nearest to 87/1000: it is
    less than half a unit in the last place away. *)
Lemma avr_lit_0_087_nearest :
  exists m, Float.lit_0_087 24 128 = S754_finite false m (-27)
            /\ 2 * Z.abs (1000 * Z.pos m - 87 * 2 ^ 27) < 1000.
Proof. exists 11676942%positive. split; vm_compute; reflexivity. Qed.

Lemma avr_lit_18 : Float.of_Z 24 128 18 = S754_finite false 9437184 (-19).
Proof. vm_compute. reflexivity. Qed.

(** On every [word], the single-precision test [w * 0.087 < 18] decides
    the same as the exact comparison of [87 * w] with [18000]: the rounding
    of the literal and of the product never crosses the threshold. *)
Lemma avr_below_18_degrees_exact (w : Z) :
  0 <= w < 65536 -> Float.avr_below_18_degrees w = (87 * w <? 18000).
Proof.
  intro H. unfold Float.avr_below_18_degrees, Float.below_18_degrees.
  rewrite avr_lit_0_087, avr_lit_18.
  apply eqb_prop. revert w H. apply forall_word.
  vm_compute. reflexivity.
Qed.

Lemma b64_lit_0_087 :
  Float.lit_0_087 53 1024 = S754_finite false 6269010681299730 (-56).
Proof. vm_compute. reflexivity. Qed.

Lemma b64_lit_18 :
  Float.of_Z 53 1024 18 = S754_finite false 5066549580791808 (-48).
Proof. vm_compute. reflexivity. Qed.

(** The double-precision test decides the same. *)
Lemma b64_below_18_degrees_exact (w : Z) :
  0 <= w < 65536 -> Float.b64_below_18_degrees w = (87 * w <? 18000).
Proof.
  intro H. unfold Float.b64_below_18_degrees, Float.below_18_degrees.
  rewrite b64_lit_0_087, b64_lit_18.
  apply eqb_prop. revert w H. apply forall_word.
  vm_compute. reflexivity.
Qed.

(** ** Runs of the register primitives *)

Lemma skipn_length_app {A : Type} (l evs : list A) :
  skipn (length l) (l ++ evs) = evs.
Proof. induction l as [|x l IH]; [reflexivity | exact IH]. Qed.

(** A run that ends in [s'] after adding [evs] to the history. *)
Lemma outcome {A : Type} (m : M A) (s s' : Bus) (a : A) (evs : list Event) :
  m s = Some (a, s') ->
  trace s' = trace s ++ evs ->
  result m s = Some a
  /\ new_events m s = Some evs
  /\ new_writes m s = Some (writes evs).
Proof.
  intros Hm Ht. unfold new_writes, new_events, result.
  rewrite Hm, Ht, skipn_length_app. auto.
Qed.

(** A busy-wait loop whose condition holds never ends: nothing changes
    between two tests. *)
Lemma busy_wait_hangs (fuel : nat) (c : Z -> bool) (s : Bus) :
  c (Z.of_nat (length (rxbuf s))) = true -> busy_wait fuel c s = None.
Proof.
  intro H. induction fuel as [|f IH]; [reflexivity|].
  cbn [busy_wait]. unfold bind, SoftWire.available. now rewrite H.
Qed.

Ltac run_transport :=
  unfold bind, SoftWire.beginTransmission, SoftWire.write,
    SoftWire.endTransmission, SoftWire.requestFrom, busy_wait,
    SoftWire.available, SoftWire.read, delay, ret, bind;
  cbn [regs dev_addr ptr target txbuf rxbuf trace app store_bytes].

Ltac trace_grows :=
  unfold seen_word_read, seen_pair_read, seen_byte_read, seen_read,
    seen_write, seen_delay;
  cbn [trace]; rewrite <- ?app_assoc; cbn [app]; reflexivity.

Ltac conclude R :=
  eapply outcome in R; [| trace_grows ];
  cbn [writes flat_map app] in R;
  destruct R as (? & ? & ?); auto.

(** The facts below are about a sensor that is [attached], and about
    busy-wait loops that may test their condition at least once
    ([fuel_pos]): the attached sensor answers every request at once, so
    every loop ends at its first test and every call returns.  Without a
    sensor the first read hangs ([readOneByte_hangs]). *)
Section Runs.
Context {rm : RegisterMap}.
Variable fuel : nat.
Hypothesis fuel_pos : (0 < fuel)%nat.

Lemma readOneByte_run (a : Z) (s : Bus) :
  attached s ->
  readOneByte fuel a s = Some (reg s a, seen_byte_read s a).
Proof.
  intro Ha. red in Ha. destruct fuel as [|f]; [lia|].
  unfold readOneByte, seen_byte_read, seen_read, reg. run_transport.
  rewrite <- Ha, !Z.eqb_refl.
  change (Z.to_nat 1) with 1%nat.
  cbn [fetch_bytes regs dev_addr ptr target txbuf rxbuf trace app length].
  rewrite app_nil_r. reflexivity.
Qed.

Lemma readTwoBytesTogether_run (a : Z) (s : Bus) :
  attached s ->
  readTwoBytesTogether fuel a s
  = Some (reg16 s a, seen_word_read s a).
Proof.
  intro Ha. red in Ha. destruct fuel as [|f]; [lia|].
  unfold reg16. rewrite <- word_of_bytes_sum by apply to_uint8_range.
  unfold readTwoBytesTogether, seen_word_read, seen_read, reg. run_transport.
  rewrite <- Ha, !Z.eqb_refl.
  change (Z.to_nat 2) with 2%nat.
  cbn [fetch_bytes regs dev_addr ptr target txbuf rxbuf trace app length].
  rewrite app_nil_r, (to_uint8_succ a). reflexivity.
Qed.

Lemma readTwoBytesSeparately_run (a : Z) (s : Bus) :
  attached s ->
  readTwoBytesSeparately fuel a s = Some (reg16 s a, seen_pair_read s a).
Proof.
  intro Ha. unfold readTwoBytesSeparately, bind.
  rewrite (readOneByte_run a s Ha).
  rewrite (readOneByte_run (a + 1) (seen_byte_read s a) Ha).
  rewrite word_of_bytes_sum by apply to_uint8_range.
  reflexivity.
Qed.

Lemma writeOneByte_run (a d : Z) (s : Bus) :
  attached s ->
  writeOneByte a d s = Some (tt, seen_write s (to_uint8 a) (to_uint8 d)).
Proof.
  intro Ha. red in Ha.
  unfold writeOneByte, seen_write. run_transport.
  rewrite <- Ha, !Z.eqb_refl. reflexivity.
Qed.

(** With no sensor at the driver's address a read never returns, whatever
    the bound on the busy-wait loop. *)
Lemma readOneByte_hangs (a : Z) (s : Bus) :
  ~ attached s -> readOneByte fuel a s = None.
Proof.
  intro Hn. unfold attached in Hn.
  assert (E : (_ams5600_Address =? dev_addr s) = false)
    by (apply Z.eqb_neq; congruence).
  destruct s as [r d p t tx rx tr]. cbn [dev_addr] in E.
  unfold readOneByte, bind, SoftWire.beginTransmission, SoftWire.write,
    SoftWire.endTransmission, SoftWire.requestFrom.
  cbn [regs dev_addr ptr target txbuf rxbuf trace].
  rewrite E. cbn [regs dev_addr ptr target txbuf rxbuf trace].
  rewrite E. now rewrite busy_wait_hangs.
Qed.

Lemma burnAngle_run (s : Bus) :
  attached s ->
  let s3 := seen_pair_read (seen_pair_read (seen_pair_read s _addr_zpos)
                                           _addr_mpos) _addr_mang in
  let s4 := seen_byte_read s3 _addr_status in
  let s5 := seen_byte_read s4 _addr_zmco in
  burnAngle fuel s =
  if Z.testbit (reg s _addr_status) 5 then
    if reg s _addr_zmco <? 3 then
      if (reg16 s _addr_zpos =? 0) && (reg16 s _addr_mpos =? 0)
      then Some (-3, s5)
      else Some (1, seen_write s5 (to_uint8 _addr_burn) 0x80)
    else Some (-2, s5)
  else Some (-1, s4).
Proof.
  intros Ha s3 s4 s5.
  unfold burnAngle, getStartPosition, getEndPosition, getMaxAngle,
    detectMagnet, getBurnCount, bind.
  rewrite (readTwoBytesSeparately_run _ s Ha).
  rewrite (readTwoBytesSeparately_run _ (seen_pair_read s _addr_zpos) Ha).
  unfold ret at 1.
  rewrite readTwoBytesSeparately_run by exact Ha.
  rewrite (readOneByte_run _ s3 Ha).
  unfold ret at 1.
  change (reg s3 _addr_status) with (reg s _addr_status).
  destruct (status_bits (reg s _addr_status) (to_uint8_range _)) as [E _].
  rewrite E.
  destruct (Z.testbit (reg s _addr_status) 5); cbn [negb Z.eqb Pos.eqb].
  - rewrite (readOneByte_run _ s4 Ha).
    change (reg s4 _addr_zmco) with (reg s _addr_zmco).
    change (reg16 (seen_pair_read s _addr_zpos) _addr_mpos)
      with (reg16 s _addr_mpos).
    destruct (reg s _addr_zmco <? 3); [|reflexivity].
    destruct ((reg16 s _addr_zpos =? 0) && (reg16 s _addr_mpos =? 0));
      [reflexivity|].
    rewrite (writeOneByte_run _ _ s5 Ha). reflexivity.
  - reflexivity.
Qed.

Lemma burnMaxAngleAndConfig_run (s : Bus) :
  attached s ->
  let s2 := seen_byte_read (seen_pair_read s _addr_mang) _addr_zmco in
  burnMaxAngleAndConfig fuel s =
  if reg s _addr_zmco =? 0 then
    if 87 * reg16 s _addr_mang <? 18000 then Some (-2, s2)
    else Some (1, seen_write s2 (to_uint8 _addr_burn) 0x40)
  else Some (-1, s2).
Proof.
  intros Ha s2.
  unfold burnMaxAngleAndConfig, getMaxAngle, getBurnCount, bind.
  rewrite (readTwoBytesSeparately_run _ s Ha).
  rewrite readOneByte_run by exact Ha.
  change (reg (seen_pair_read s _addr_mang) _addr_zmco)
    with (reg s _addr_zmco).
  destruct (reg s _addr_zmco =? 0); [|reflexivity].
  rewrite avr_below_18_degrees_exact.
  - destruct (87 * reg16 s _addr_mang <? 18000); [reflexivity|].
    rewrite writeOneByte_run by exact Ha. reflexivity.
  - unfold reg16, reg.
    pose proof (to_uint8_range (regs s (to_uint8 _addr_mang))).
    pose proof (to_uint8_range (regs s (to_uint8 (_addr_mang + 1)))).
    lia.
Qed.

(** ** One-time programming *)

(** C1.  [burnAngle] on any state of an attached sensor: with the MD bit
    of the status register clear (magnet not detected) it returns -1 (no
    magnet), whatever the burn count and the positions; otherwise with a
    burn count of 3 or more it returns -2 (burn limit exceeded);
    otherwise, when the start and the end position both read 0, it
    returns -3 (nothing to burn); otherwise it writes the command byte
    0x80 to the burn register and returns 1.  The three failures write
    nothing. *)
Theorem burnAngle_guards (s : Bus) :
  attached s ->
  let detected := Z.testbit (reg s _addr_status) 5 in
  let count := reg s _addr_zmco in
  let zpos := reg16 s _addr_zpos in
  let mpos := reg16 s _addr_mpos in
  (detected = false ->
     result (burnAngle fuel) s = Some (-1)
     /\ new_writes (burnAngle fuel) s = Some [])
  /\ (detected = true -> 3 <= count ->
     result (burnAngle fuel) s = Some (-2)
     /\ new_writes (burnAngle fuel) s = Some [])
  /\ (detected = true -> count < 3 -> zpos = 0 /\ mpos = 0 ->
     result (burnAngle fuel) s = Some (-3)
     /\ new_writes (burnAngle fuel) s = Some [])
  /\ (detected = true -> count < 3 -> ~ (zpos = 0 /\ mpos = 0) ->
     result (burnAngle fuel) s = Some 1
     /\ new_writes (burnAngle fuel) s
        = Some [(to_uint8 _addr_burn, 0x80)]).
Proof.
  intros Ha detected count zpos mpos.
  pose proof (burnAngle_run s Ha) as R. cbv zeta in R.
  fold detected count zpos mpos in R.
  split; [|split; [|split]].
  - intro Hd. rewrite Hd in R. conclude R.
  - intros Hd Hc. apply Z.ltb_ge in Hc. rewrite Hd, Hc in R. conclude R.
  - intros Hd Hc [Hz Hm]. apply Z.ltb_lt in Hc.
    rewrite Hd, Hc, Hz, Hm in R. conclude R.
  - intros Hd Hc Hn. apply Z.ltb_lt in Hc. rewrite Hd, Hc in R.
    destruct ((zpos =? 0) && (mpos =? 0)) eqn:E.
    + apply andb_true_iff in E. rewrite !Z.eqb_eq in E. contradiction.
    + conclude R.
Qed.

(** C2.  With a burn count of 0, [burnMaxAngleAndConfig] returns -2 (max
    angle too small) for every raw max angle [X] with [X * 0.087 < 18],
    and for every other [X], the least of which is 207, it writes the
    command byte 0x40 to the burn register and returns 1.  The product
    and the comparison are the floating-point ones of the code; on every
    16-bit [X] they decide as the exact comparison [87 * X < 18000]
    does. *)
Theorem burnMaxAngleAndConfig_threshold (s : Bus) :
  attached s ->
  reg s _addr_zmco = 0 ->
  let X := reg16 s _addr_mang in
  (Float.avr_below_18_degrees X = true <-> 87 * X < 18000)
  /\ (87 * X < 18000 <-> X < 207)
  /\ (Float.avr_below_18_degrees X = true ->
      result (burnMaxAngleAndConfig fuel) s = Some (-2)
      /\ new_writes (burnMaxAngleAndConfig fuel) s = Some [])
  /\ (Float.avr_below_18_degrees X = false ->
      result (burnMaxAngleAndConfig fuel) s = Some 1
      /\ new_writes (burnMaxAngleAndConfig fuel) s
         = Some [(to_uint8 _addr_burn, 0x40)]).
Proof.
  intros Ha Hc X.
  assert (HX : 0 <= X < 65536).
  { unfold X, reg16, reg.
    pose proof (to_uint8_range (regs s (to_uint8 _addr_mang))).
    pose proof (to_uint8_range (regs s (to_uint8 (_addr_mang + 1)))).
    lia. }
  pose proof (burnMaxAngleAndConfig_run s Ha) as R. cbv zeta in R.
  fold X in R. rewrite Hc in R. cbn [Z.eqb] in R.
  rewrite (avr_below_18_degrees_exact X HX).
  split; [apply Z.ltb_lt|]. split; [lia|]. split.
  - intro E. rewrite E in R. conclude R.
  - intro E. rewrite E in R. conclude R.
Qed.

(** C3.  Whenever the burn count is not 0, [burnMaxAngleAndConfig]
    returns -1 (burn limit exceeded), whatever the max angle, and writes
    to no register, so not to the burn register. *)
Theorem burnMaxAngleAndConfig_only_once (s : Bus) :
  attached s ->
  reg s _addr_zmco <> 0 ->
  result (burnMaxAngleAndConfig fuel) s = Some (-1)
  /\ new_writes (burnMaxAngleAndConfig fuel) s = Some [].
Proof.
  intros Ha Hc.
  pose proof (burnMaxAngleAndConfig_run s Ha) as R. cbv zeta in R.
  apply Z.eqb_neq in Hc. rewrite Hc in R. conclude R.
Qed.

(** C10.  [burnMaxAngleAndConfig] does not look at the magnet: with a
    burn count of 0 and a max angle that passes the 18 degree test it
    writes the command byte 0x40 to the burn register and returns 1 also
    when [detectMagnet] reports no magnet.  Its whole bus traffic is the
    read of the max-angle pair, the read of the burn count and that
    write; the status register is not read. *)
Theorem burnMaxAngleAndConfig_ignores_magnet (s : Bus) :
  attached s ->
  result (detectMagnet fuel) s = Some 0 ->
  reg s _addr_zmco = 0 ->
  Float.avr_below_18_degrees (reg16 s _addr_mang) = false ->
  result (burnMaxAngleAndConfig fuel) s = Some 1
  /\ new_events (burnMaxAngleAndConfig fuel) s
     = Some [EvRead (to_uint8 _addr_mang) [reg s _addr_mang];
             EvRead (to_uint8 (_addr_mang + 1)) [reg s (_addr_mang + 1)];
             EvRead (to_uint8 _addr_zmco) [reg s _addr_zmco];
             EvWrite (to_uint8 _addr_burn) 0x40].
Proof.
  intros Ha _ Hc Hf.
  assert (HX : 0 <= reg16 s _addr_mang < 65536).
  { unfold reg16, reg.
    pose proof (to_uint8_range (regs s (to_uint8 _addr_mang))).
    pose proof (to_uint8_range (regs s (to_uint8 (_addr_mang + 1)))).
    lia. }
  rewrite (avr_below_18_degrees_exact _ HX) in Hf.
  pose proof (burnMaxAngleAndConfig_run s Ha) as R. cbv zeta in R.
  rewrite Hc, Hf in R. cbn [Z.eqb] in R.
  eapply outcome in R; [| trace_grows ].
  destruct R as (Hr & He & _). split; [exact Hr | exact He].
Qed.

(** ** Magnet status *)

Lemma detectMagnet_run (s : Bus) :
  attached s ->
  detectMagnet fuel s
  = Some (if Z.testbit (reg s _addr_status) 5 then 1 else 0,
          seen_byte_read s _addr_status).
Proof.
  intro Ha. unfold detectMagnet, bind.
  rewrite (readOneByte_run _ s Ha). unfold ret.
  destruct (status_bits (reg s _addr_status) (to_uint8_range _)) as [E _].
  rewrite E. now destruct (Z.testbit (reg s _addr_status) 5).
Qed.

Lemma getMagnetStrength_run (s : Bus) :
  attached s ->
  getMagnetStrength fuel s
  = Some (if Z.testbit (reg s _addr_status) 5 then
            if Z.testbit (reg s _addr_status) 4 then 1
            else if Z.testbit (reg s _addr_status) 3 then 3 else 2
          else 0,
          seen_byte_read s _addr_status).
Proof.
  intro Ha. unfold getMagnetStrength, bind.
  rewrite (readOneByte_run _ s Ha). unfold ret.
  destruct (status_bits (reg s _addr_status) (to_uint8_range _))
    as (E5 & E4 & E3).
  rewrite E5, E4, E3.
  now destruct (Z.testbit (reg s _addr_status) 5),
    (Z.testbit (reg s _addr_status) 4), (Z.testbit (reg s _addr_status) 3).
Qed.

(** C4.  For every status byte, with MD, ML and MH its bits 5, 4 and 3:
    [getMagnetStrength] returns 0 (none) exactly when MD is clear, which
    is exactly when [detectMagnet] returns 0; with MD set it returns 1
    (too weak) if ML is set, 3 (too strong) if MH is set and ML is clear,
    and 2 (good) if both are clear. *)
Theorem getMagnetStrength_table (s : Bus) :
  attached s ->
  let MD := Z.testbit (reg s _addr_status) 5 in
  let ML := Z.testbit (reg s _addr_status) 4 in
  let MH := Z.testbit (reg s _addr_status) 3 in
  (result (getMagnetStrength fuel) s = Some 0 <-> MD = false)
  /\ (result (detectMagnet fuel) s = Some 0 <-> MD = false)
  /\ (MD = true -> result (detectMagnet fuel) s = Some 1)
  /\ (MD = true -> ML = true ->
      result (getMagnetStrength fuel) s = Some 1)
  /\ (MD = true -> ML = false -> MH = true ->
      result (getMagnetStrength fuel) s = Some 3)
  /\ (MD = true -> ML = false -> MH = false ->
      result (getMagnetStrength fuel) s = Some 2).
Proof.
  intros Ha MD ML MH. unfold result.
  rewrite (getMagnetStrength_run s Ha), (detectMagnet_run s Ha).
  fold MD ML MH.
  destruct MD, ML, MH; repeat split; intros; congruence.
Qed.

(** ** Register reads *)

(** C6.  The two-byte read returns [(highByte << 8) | lowByte], where the
    first byte received, the one of the lower address, is the high byte;
    with 0x0A then 0x3C in the raw-angle pair, [getRawAngle] returns
    0x0A3C, that is 2620. *)
Theorem readTwoBytesTogether_composes (s : Bus) (a : Z) :
  attached s ->
  let hi := reg s a in
  let lo := reg s (a + 1) in
  result (readTwoBytesTogether fuel a) s = Some (Z.lor (Z.shiftl hi 8) lo)
  /\ new_events (readTwoBytesTogether fuel a) s
     = Some [EvRead (to_uint8 a) [hi; lo]]
  /\ (reg s _addr_raw_angle = 0x0A ->
      reg s (_addr_raw_angle + 1) = 0x3C ->
      result (getRawAngle fuel) s = Some 2620).
Proof.
  intros Ha hi lo.
  pose proof (readTwoBytesTogether_run a s Ha) as R.
  unfold reg16 in R.
  rewrite <- word_of_bytes_sum, word_of_bytes_lor in R
    by apply to_uint8_range.
  eapply outcome in R; [| trace_grows ].
  destruct R as (Hr & He & _).
  split; [exact Hr|]. split; [exact He|].
  intros Hh Hl. unfold result, getRawAngle.
  rewrite (readTwoBytesTogether_run _ s Ha). unfold reg16.
  now rewrite Hh, Hl.
Qed.

(** C7.  When the register pair at [a] holds the same two bytes at the
    time of the two-byte read and at the time of the two single-byte
    reads, [readTwoBytesTogether] and [readTwoBytesSeparately] return the
    same 16-bit value, which is the value composed of the two bytes of the
    pair: [(hi << 8) | lo] with [hi] the byte at [a] and [lo] the byte at
    [a + 1]. *)
Theorem together_equals_separately (s1 s2 : Bus) (a : Z) :
  attached s1 ->
  attached s2 ->
  reg s1 a = reg s2 a ->
  reg s1 (a + 1) = reg s2 (a + 1) ->
  let v := Z.lor (Z.shiftl (reg s1 a) 8) (reg s1 (a + 1)) in
  0 <= v < 65536
  /\ result (readTwoBytesTogether fuel a) s1 = Some v
  /\ result (readTwoBytesSeparately fuel a) s2 = Some v.
Proof.
  intros H1 H2 Eh El v.
  assert (Ev : v = reg16 s1 a).
  { unfold v, reg16.
    rewrite <- word_of_bytes_lor, word_of_bytes_sum by apply to_uint8_range.
    reflexivity. }
  rewrite Ev. unfold result.
  rewrite (readTwoBytesTogether_run a s1 H1).
  rewrite (readTwoBytesSeparately_run a s2 H2).
  unfold reg16. rewrite Eh, El. split; [|split; reflexivity].
  pose proof (to_uint8_range (regs s2 (to_uint8 a))).
  pose proof (to_uint8_range (regs s2 (to_uint8 (a + 1)))).
  unfold reg. lia.
Qed.

(** ** Output mode *)

(** The bits of a config low byte [L] after the output-mode field got the
    value [m]. *)
Lemma outmode_bits (L m i : Z) :
  0 <= L < 256 ->
  m = 0 \/ m = 0x20 \/ m = 0x10 ->
  Z.testbit (Z.lor (Z.land L 0xCF) m) i
  = if i =? 5 then m =? 0x20 else if i =? 4 then m =? 0x10
    else Z.testbit L i.
Proof.
  intros HL Hm. rewrite Z.lor_spec, Z.land_spec.
  destruct (Z.ltb_spec i 0) as [Hneg|Hpos].
  - rewrite !(Z.testbit_neg_r _ i) by lia.
    destruct (i =? 5) eqn:E5; [apply Z.eqb_eq in E5; lia|].
    destruct (i =? 4) eqn:E4; [apply Z.eqb_eq in E4; lia|]. reflexivity.
  - destruct (Z.ltb_spec i 8) as [Hlt|Hge].
    + assert (Hi : i = 0 \/ i = 1 \/ i = 2 \/ i = 3 \/ i = 4 \/ i = 5
                   \/ i = 6 \/ i = 7) by lia.
      destruct Hm as [-> | [-> | ->]];
        repeat (destruct Hi as [-> | Hi]); try subst i;
        cbn; rewrite ?andb_true_r, ?andb_false_r, ?orb_false_r;
        reflexivity.
    + assert (HLi : Z.testbit L i = false).
      { destruct (Z.eq_dec L 0) as [->|Hnz]; [apply Z.testbit_0_l|].
        apply Z.bits_above_log2; [lia|].
        apply Z.lt_le_trans with 8; [|exact Hge].
        apply Z.log2_lt_pow2; lia. }
      assert (Hmi : Z.testbit m i = false).
      { destruct Hm as [-> | [-> | ->]]; [apply Z.testbit_0_l| |];
          (apply Z.bits_above_log2; [lia|]; cbn; lia). }
      rewrite HLi, Hmi.
      destruct (i =? 5) eqn:E5; [apply Z.eqb_eq in E5; lia|].
      destruct (i =? 4) eqn:E4; [apply Z.eqb_eq in E4; lia|]. reflexivity.
Qed.

Lemma outmode_byte (L m : Z) :
  0 <= L < 256 ->
  m = 0 \/ m = 0x20 \/ m = 0x10 ->
  to_uint8 (Z.lor (Z.land L 0xCF) m) = Z.lor (Z.land L 0xCF) m.
Proof.
  intros HL Hm. apply Z.eqb_eq.
  destruct Hm as [-> | [-> | ->]]; revert L HL; apply forall_byte;
    vm_compute; reflexivity.
Qed.

Lemma setOutPut_run (mode : Z) (s : Bus) :
  attached s ->
  let m := if mode =? 0 then 0x20 else if mode =? 2 then 0x10 else 0 in
  setOutPut fuel mode s
  = Some (tt, seen_write (seen_byte_read s (_addr_conf + 1))
                         (to_uint8 (_addr_conf + 1))
                         (Z.lor (Z.land (reg s (_addr_conf + 1)) 0xCF) m)).
Proof.
  intros Ha m. unfold setOutPut. cbv zeta. unfold bind.
  rewrite (readOneByte_run _ s Ha).
  rewrite writeOneByte_run by exact Ha.
  pose proof (to_uint8_range (regs s (to_uint8 (_addr_conf + 1)))) as HL.
  fold (reg s (_addr_conf + 1)) in HL.
  rewrite (to_uint8_small (reg s (_addr_conf + 1)) HL).
  assert (Hm : m = 0 \/ m = 0x20 \/ m = 0x10).
  { unfold m. destruct (mode =? 0); [|destruct (mode =? 2)]; auto. }
  rewrite <- (outmode_byte _ m HL Hm). unfold m.
  destruct (mode =? 0); [reflexivity|].
  destruct (mode =? 2); [reflexivity|].
  now rewrite Z.lor_0_r.
Qed.

(** C8.  For every prior low byte [L] of the config register, [setOutPut]
    writes back [L & 0b11001111] with bits 5:4 set to 10 for mode 0, to
    01 for mode 2 and left 00 for every other mode; the other bits of
    [L] are unchanged; the write goes to the low byte only, the high byte
    of the config register is not written.  With [L = 0b00101111],
    [setOutPut(0)] writes [0b00101111]. *)
Theorem setOutPut_bits (s : Bus) (mode : Z) :
  attached s ->
  let conf_lo := to_uint8 (_addr_conf + 1) in
  let L := reg s (_addr_conf + 1) in
  exists W,
    new_events (setOutPut fuel mode) s
    = Some [EvRead conf_lo [L]; EvWrite conf_lo W]
    /\ W = Z.lor (Z.land L 0xCF)
                 (if mode =? 0 then 0x20 else if mode =? 2 then 0x10 else 0)
    /\ Z.testbit W 5 = (mode =? 0)
    /\ Z.testbit W 4 = (mode =? 2)
    /\ (forall i, i <> 4 -> i <> 5 -> Z.testbit W i = Z.testbit L i)
    /\ conf_lo <> to_uint8 _addr_conf
    /\ (L = 0x2F -> mode = 0 -> W = 0x2F).
Proof.
  intros Ha conf_lo L.
  pose proof (setOutPut_run mode s Ha) as R. cbv zeta in R. fold L in R.
  set (m := if mode =? 0 then 0x20 else if mode =? 2 then 0x10 else 0) in *.
  assert (HL : 0 <= L < 256) by apply to_uint8_range.
  assert (Hm : m = 0 \/ m = 0x20 \/ m = 0x10).
  { unfold m. destruct (mode =? 0); [|destruct (mode =? 2)]; auto. }
  exists (Z.lor (Z.land L 0xCF) m).
  eapply outcome in R; [| trace_grows ]. destruct R as (_ & He & _).
  split; [exact He|]. split; [reflexivity|].
  split; [|split; [|split; [|split]]].
  - rewrite (outmode_bits L m 5 HL Hm). cbn [Z.eqb Pos.eqb]. unfold m.
    destruct (mode =? 0); [reflexivity|]. now destruct (mode =? 2).
  - rewrite (outmode_bits L m 4 HL Hm). cbn [Z.eqb Pos.eqb]. unfold m.
    destruct (mode =? 0) eqn:E0; [|now destruct (mode =? 2)].
    apply Z.eqb_eq in E0. now rewrite E0.
  - intros i H4 H5. rewrite (outmode_bits L m i HL Hm).
    destruct (i =? 5) eqn:E5; [apply Z.eqb_eq in E5; lia|].
    destruct (i =? 4) eqn:E4; [apply Z.eqb_eq in E4; lia|]. reflexivity.
  - apply to_uint8_succ_neq.
  - intros EL Em. unfold m. rewrite EL, Em. reflexivity.
Qed.

(** ** Two-register set operations *)

(** The common shape of [setMaxAngle], [setStartPosition] and
    [setEndPosition] at the register pair [a]. *)
Lemma setter_run (a v : Z) (s : Bus) :
  attached s ->
  let x := value_to_write s v in
  let s0 := if v =? 0xFFFF then seen_word_read s _addr_raw_angle else s in
  let s4 :=
    seen_delay
      (seen_write
         (seen_delay (seen_write s0 (to_uint8 a) (highByte x)) 2)
         (to_uint8 (a + 1)) (lowByte x)) 2 in
  (_x <- (if v =? to_word (-1) then getRawAngle fuel else ret v) ;;
   writeOneByte a (highByte _x) ;;
   delay 2 ;;
   writeOneByte (a + 1) (lowByte _x) ;;
   delay 2 ;;
   r <- readTwoBytesSeparately fuel a ;;
   ret r) s
  = Some (reg16 s4 a, seen_pair_read s4 a).
Proof.
  intros Ha x s0 s4.
  assert (E : (_x <- (if v =? to_word (-1) then getRawAngle fuel
                      else ret v) ;;
               ret _x) s = Some (x, s0)).
  { unfold x, s0, value_to_write, bind.
    change (to_word (-1)) with 0xFFFF.
    destruct (v =? 0xFFFF); [|reflexivity].
    unfold getRawAngle. now rewrite (readTwoBytesTogether_run _ s Ha). }
  assert (Ha0 : attached s0) by (unfold s0; now destruct (v =? 0xFFFF)).
  unfold bind in *.
  destruct ((if v =? to_word (-1) then getRawAngle fuel else ret v) s)
    as [[x' s0']|]; [|discriminate E].
  unfold ret in E. injection E as -> ->.
  rewrite (writeOneByte_run _ _ s0 Ha0).
  rewrite (to_uint8_small _ (highByte_range x)).
  unfold delay at 1.
  rewrite writeOneByte_run by exact Ha0.
  rewrite (to_uint8_small _ (lowByte_range x)).
  unfold delay at 1.
  rewrite readTwoBytesSeparately_run by exact Ha0.
  reflexivity.
Qed.

Lemma setter_spec (a v : Z) (s : Bus) :
  attached s ->
  let x := value_to_write s v in
  let m :=
    (_x <- (if v =? to_word (-1) then getRawAngle fuel else ret v) ;;
     writeOneByte a (highByte _x) ;;
     delay 2 ;;
     writeOneByte (a + 1) (lowByte _x) ;;
     delay 2 ;;
     r <- readTwoBytesSeparately fuel a ;;
     ret r) in
  commits_and_reads_back m s (capture s v) a x
  /\ new_writes m s
     = Some [(to_uint8 a, highByte x); (to_uint8 (a + 1), lowByte x)].
Proof.
  intros Ha x m.
  pose proof (setter_run a v s Ha) as R. cbv zeta in R.
  fold x m in R.
  set (s4 := seen_delay _ 2) in R.
  assert (Ht : trace (seen_pair_read s4 a)
               = trace s ++ capture s v ++ pair_write a x
                 ++ [EvRead (to_uint8 a) [reg s4 a];
                     EvRead (to_uint8 (a + 1)) [reg s4 (a + 1)]]).
  { unfold s4, capture, pair_write. destruct (v =? 0xFFFF); trace_grows. }
  split.
  - exists (seen_pair_read s4 a), (reg s4 a), (reg s4 (a + 1)).
    eexists. split; [|split; [|split; [|split]]].
    + rewrite R. unfold reg16.
      rewrite <- word_of_bytes_lor, word_of_bytes_sum
        by apply to_uint8_range.
      reflexivity.
    + reflexivity.
    + reflexivity.
    + exact Ht.
    + reflexivity.
  - destruct (outcome m s _ _ _ R Ht) as (_ & _ & Hw). rewrite Hw.
    unfold capture, pair_write. now destruct (v =? 0xFFFF).
Qed.

Lemma reg16_range (s : Bus) (a : Z) : 0 <= reg16 s a < 65536.
Proof.
  unfold reg16, reg.
  pose proof (to_uint8_range (regs s (to_uint8 a))).
  pose proof (to_uint8_range (regs s (to_uint8 (a + 1)))).
  lia.
Qed.

Lemma value_to_write_range (s : Bus) (v : Z) :
  0 <= v < 65536 -> 0 <= value_to_write s v < 65536.
Proof.
  intro Hv. unfold value_to_write.
  destruct (v =? 0xFFFF); [apply reg16_range | exact Hv].
Qed.

(** Writing the bytes 0xFF, 0xFF means writing the word 0xFFFF. *)
Lemma all_ones (a x : Z) :
  0 <= x < 65536 ->
  Some [(to_uint8 a, highByte x); (to_uint8 (a + 1), lowByte x)]
  = Some [(to_uint8 a, highByte 0xFFFF); (to_uint8 (a + 1), lowByte 0xFFFF)]
  -> x = 0xFFFF.
Proof.
  intros Hx E. injection E as Eh El.
  rewrite <- (bytes_of_word x Hx), Eh, El. reflexivity.
Qed.

(** C5, as amended.  [setMaxAngle], [setStartPosition] and
    [setEndPosition] write the high byte, wait, write the low byte, wait,
    then read the register pair back with two single-byte reads and
    return the value the pair then holds; the value they write is the
    argument, or the raw angle they first capture when the argument is
    the sentinel.  [setConf] writes the high byte, waits, writes the low
    byte and waits; it reads nothing back and returns nothing. *)
Theorem setters_read_back_setConf_only_writes (s : Bus) (v : Z) :
  attached s ->
  let x := value_to_write s v in
  commits_and_reads_back (setMaxAngle fuel v) s (capture s v) _addr_mang x
  /\ commits_and_reads_back (setStartPosition fuel v) s (capture s v)
                            _addr_zpos x
  /\ commits_and_reads_back (setEndPosition fuel v) s (capture s v)
                            _addr_mpos x
  /\ result (setConf v) s = Some tt
  /\ new_events (setConf v) s = Some (pair_write _addr_conf v).
Proof.
  intros Ha x.
  split; [exact (proj1 (setter_spec _addr_mang v s Ha))|].
  split; [exact (proj1 (setter_spec _addr_zpos v s Ha))|].
  split; [exact (proj1 (setter_spec _addr_mpos v s Ha))|].
  assert (R : setConf v s
              = Some (tt, seen_delay
                            (seen_write
                               (seen_delay
                                  (seen_write s (to_uint8 _addr_conf)
                                              (highByte v)) 2)
                               (to_uint8 (_addr_conf + 1)) (lowByte v)) 2)).
  { unfold setConf, bind.
    rewrite (writeOneByte_run _ _ s Ha).
    rewrite (to_uint8_small _ (highByte_range v)).
    unfold delay at 1.
    rewrite writeOneByte_run by exact Ha.
    rewrite (to_uint8_small _ (lowByte_range v)).
    reflexivity. }
  eapply outcome in R; [| trace_grows ].
  destruct R as (Hr & He & _). split; [exact Hr | exact He].
Qed.

(** C9.  For every 16-bit argument other than 0xFFFF, [setMaxAngle],
    [setStartPosition] and [setEndPosition] write the high and the low
    byte of the argument to their register pair.  The argument 0xFFFF,
    which is what the comparison with -1 selects, makes them write the
    raw angle read at that moment.  So 0xFFFF is written only when the
    argument is the sentinel and the raw angle itself reads 0xFFFF, hence
    never with a raw angle in the 12-bit range of the sensor; and every
    12-bit value is written as given. *)
Theorem sentinel_setters (s : Bus) :
  attached s ->
  let raw := reg16 s _addr_raw_angle in
  let pair (a x : Z) :=
    Some [(to_uint8 a, highByte x); (to_uint8 (a + 1), lowByte x)] in
  (forall v, 0 <= v < 65536 -> v <> 0xFFFF ->
     new_writes (setMaxAngle fuel v) s = pair _addr_mang v
     /\ new_writes (setStartPosition fuel v) s = pair _addr_zpos v
     /\ new_writes (setEndPosition fuel v) s = pair _addr_mpos v)
  /\ (result (getRawAngle fuel) s = Some raw
      /\ new_writes (setMaxAngle fuel 0xFFFF) s = pair _addr_mang raw
      /\ new_writes (setStartPosition fuel 0xFFFF) s = pair _addr_zpos raw
      /\ new_writes (setEndPosition fuel 0xFFFF) s = pair _addr_mpos raw)
  /\ (forall v, 0 <= v < 65536 ->
        new_writes (setMaxAngle fuel v) s = pair _addr_mang 0xFFFF
        \/ new_writes (setStartPosition fuel v) s = pair _addr_zpos 0xFFFF
        \/ new_writes (setEndPosition fuel v) s = pair _addr_mpos 0xFFFF ->
        v = 0xFFFF /\ raw = 0xFFFF)
  /\ (raw < 4096 ->
      forall v, 0 <= v < 65536 ->
        new_writes (setMaxAngle fuel v) s <> pair _addr_mang 0xFFFF
        /\ new_writes (setStartPosition fuel v) s <> pair _addr_zpos 0xFFFF
        /\ new_writes (setEndPosition fuel v) s <> pair _addr_mpos 0xFFFF)
  /\ (forall w, 0 <= w < 4096 ->
        highByte w * 256 + lowByte w = w
        /\ new_writes (setMaxAngle fuel w) s = pair _addr_mang w
        /\ new_writes (setStartPosition fuel w) s = pair _addr_zpos w
        /\ new_writes (setEndPosition fuel w) s = pair _addr_mpos w).
Proof.
  intros Ha raw pair.
  assert (W : forall v,
    new_writes (setMaxAngle fuel v) s = pair _addr_mang (value_to_write s v)
    /\ new_writes (setStartPosition fuel v) s
       = pair _addr_zpos (value_to_write s v)
    /\ new_writes (setEndPosition fuel v) s
       = pair _addr_mpos (value_to_write s v)).
  { intro v. split; [|split].
    - exact (proj2 (setter_spec _addr_mang v s Ha)).
    - exact (proj2 (setter_spec _addr_zpos v s Ha)).
    - exact (proj2 (setter_spec _addr_mpos v s Ha)). }
  assert (Plain : forall v, v <> 0xFFFF -> value_to_write s v = v).
  { intros v Hv. unfold value_to_write.
    apply Z.eqb_neq in Hv. now rewrite Hv. }
  assert (Only : forall v, 0 <= v < 65536 ->
    value_to_write s v = 0xFFFF -> v = 0xFFFF /\ raw = 0xFFFF).
  { intros v Hv E. unfold value_to_write in E.
    destruct (v =? 0xFFFF) eqn:Ev.
    - apply Z.eqb_eq in Ev. now split.
    - apply Z.eqb_neq in Ev. contradiction. }
  assert (Ones : forall v, 0 <= v < 65536 ->
    new_writes (setMaxAngle fuel v) s = pair _addr_mang 0xFFFF
    \/ new_writes (setStartPosition fuel v) s = pair _addr_zpos 0xFFFF
    \/ new_writes (setEndPosition fuel v) s = pair _addr_mpos 0xFFFF ->
    v = 0xFFFF /\ raw = 0xFFFF).
  { intros v Hv H. apply (Only v Hv).
    destruct (W v) as (W1 & W2 & W3).
    pose proof (value_to_write_range s v Hv) as Hx.
    destruct H as [H | [H | H]].
    - rewrite W1 in H. exact (all_ones _ _ Hx H).
    - rewrite W2 in H. exact (all_ones _ _ Hx H).
    - rewrite W3 in H. exact (all_ones _ _ Hx H). }
  split; [|split; [|split; [|split]]].
  - intros v Hv Hn. destruct (W v) as (W1 & W2 & W3).
    rewrite (Plain v Hn) in W1, W2, W3. auto.
  - destruct (W 0xFFFF) as (W1 & W2 & W3). split; [|auto].
    unfold result, getRawAngle.
    now rewrite (readTwoBytesTogether_run _ s Ha).
  - exact Ones.
  - intros Hraw v Hv.
    split; [|split]; intro H;
      destruct (Ones v Hv) as [_ E]; auto; lia.
  - intros w Hw. split; [apply bytes_of_word; lia|].
    destruct (W w) as (W1 & W2 & W3).
    rewrite (Plain w) in W1, W2, W3 by lia. auto.
Qed.

End Runs.

(** ** The driver on the concrete sensor *)

(** Runs of the embedded code, evaluated. *)
Example raw_angle_0A3C :
  result (getRawAngle (rm := as5600) 1) sensor_ready = Some 0x0A3C.
Proof. vm_compute. reflexivity. Qed.

Example burn_refused_at_206 :
  result (burnMaxAngleAndConfig (rm := as5600) 1)
         (sensor [(0x05, 0); (0x06, 206)]) = Some (-2).
Proof. vm_compute. reflexivity. Qed.

Example burn_issued_at_207 :
  new_events (burnMaxAngleAndConfig (rm := as5600) 1)
             (sensor [(0x05, 0); (0x06, 207)])
  = Some [EvRead 5 [0]; EvRead 6 [207]; EvRead 0 [0]; EvWrite 255 0x40].
Proof. vm_compute. reflexivity. Qed.

Example setMaxAngle_captures_raw_angle :
  new_events (setMaxAngle (rm := as5600) 1 0xFFFF) sensor_ready
  = Some [EvRead 12 [0x0A; 0x3C];
          EvWrite 5 0x0A; EvDelay 2; EvWrite 6 0x3C; EvDelay 2;
          EvRead 5 [0x0A]; EvRead 6 [0x3C]].
Proof. vm_compute. reflexivity. Qed.

Example no_sensor_no_answer :
  result (getRawAngle (rm := as5600) 1000)
         (mkBus (fun _ => 0) 0x40 0 0 [] [] []) = None.
Proof. vm_compute. reflexivity. Qed.

(** C5, as stated, fails for [setConf]: on the ready sensor,
    [setConf(0x0123)] puts two writes and two delays on the bus and no
    read, so it does not read the config register pair back. *)
Lemma setConf_reads_nothing_back :
  new_events (setConf (rm := as5600) 0x0123) sensor_ready
  = Some [EvWrite 7 0x01; EvDelay 2; EvWrite 8 0x23; EvDelay 2]
  /\ ~ (exists h l evs,
          new_events (setConf (rm := as5600) 0x0123) sensor_ready = Some evs
          /\ write_then_read_back (_addr_conf (RegisterMap := as5600))
                                  0x0123 h l evs).
Proof.
  split; [vm_compute; reflexivity|].
  intros (h & l & evs & He & Hw).
  vm_compute in He. injection He as <-.
  unfold write_then_read_back in Hw. vm_compute in Hw. discriminate Hw.
Qed.

Lemma burnAngle_guards_witness :
  attached (rm := as5600) sensor_ready
  /\ (0 < 1)%nat
  /\ result (burnAngle (rm := as5600) 1) sensor_ready = Some 1
  /\ new_writes (burnAngle (rm := as5600) 1) sensor_ready
     = Some [(0xff, 0x80)].
Proof.
  split; [reflexivity|]. split; [lia|].
  destruct (burnAngle_guards (rm := as5600) 1 ltac:(lia) sensor_ready
              ltac:(reflexivity)) as (_ & _ & _ & H).
  apply H.
  - reflexivity.
  - reflexivity.
  - intros [Hz _]. vm_compute in Hz. discriminate Hz.
Defined.

Lemma burnMaxAngleAndConfig_threshold_witness :
  attached (rm := as5600) sensor_ready
  /\ (0 < 1)%nat
  /\ reg sensor_ready 0x00 = 0
  /\ result (burnMaxAngleAndConfig (rm := as5600) 1) sensor_ready = Some 1
  /\ new_writes (burnMaxAngleAndConfig (rm := as5600) 1) sensor_ready
     = Some [(0xff, 0x40)].
Proof.
  split; [reflexivity|]. split; [lia|]. split; [reflexivity|].
  destruct (burnMaxAngleAndConfig_threshold (rm := as5600) 1 ltac:(lia)
              sensor_ready ltac:(reflexivity) ltac:(reflexivity))
    as (_ & _ & _ & H).
  apply H. vm_compute. reflexivity.
Defined.

Lemma burnMaxAngleAndConfig_only_once_witness :
  attached (rm := as5600) sensor_burnt_once
  /\ (0 < 1)%nat
  /\ reg sensor_burnt_once 0x00 <> 0
  /\ result (burnMaxAngleAndConfig (rm := as5600) 1) sensor_burnt_once
     = Some (-1)
  /\ new_writes (burnMaxAngleAndConfig (rm := as5600) 1) sensor_burnt_once
     = Some [].
Proof.
  split; [reflexivity|]. split; [lia|].
  assert (H : reg sensor_burnt_once 0x00 <> 0)
    by (vm_compute; discriminate).
  split; [exact H|].
  exact (burnMaxAngleAndConfig_only_once (rm := as5600) 1 ltac:(lia)
           sensor_burnt_once ltac:(reflexivity) H).
Defined.

Lemma burnMaxAngleAndConfig_ignores_magnet_witness :
  attached (rm := as5600) sensor_no_magnet
  /\ (0 < 1)%nat
  /\ result (detectMagnet (rm := as5600) 1) sensor_no_magnet = Some 0
  /\ result (burnMaxAngleAndConfig (rm := as5600) 1) sensor_no_magnet
     = Some 1
  /\ new_events (burnMaxAngleAndConfig (rm := as5600) 1) sensor_no_magnet
     = Some [EvRead 5 [4]; EvRead 6 [0]; EvRead 0 [0]; EvWrite 255 0x40].
Proof.
  split; [reflexivity|]. split; [lia|]. split; [vm_compute; reflexivity|].
  exact (burnMaxAngleAndConfig_ignores_magnet (rm := as5600) 1 ltac:(lia)
           sensor_no_magnet ltac:(reflexivity) ltac:(vm_compute; reflexivity)
           ltac:(reflexivity) ltac:(vm_compute; reflexivity)).
Defined.

Lemma getMagnetStrength_table_witness :
  attached (rm := as5600) sensor_ready
  /\ (0 < 1)%nat
  /\ result (getMagnetStrength (rm := as5600) 1) sensor_ready = Some 2.
Proof.
  split; [reflexivity|]. split; [lia|].
  destruct (getMagnetStrength_table (rm := as5600) 1 ltac:(lia) sensor_ready
              ltac:(reflexivity)) as (_ & _ & _ & _ & _ & H).
  apply H; reflexivity.
Defined.

Lemma readTwoBytesTogether_composes_witness :
  attached (rm := as5600) sensor_ready
  /\ (0 < 1)%nat
  /\ result (getRawAngle (rm := as5600) 1) sensor_ready = Some 2620.
Proof.
  split; [reflexivity|]. split; [lia|].
  destruct (readTwoBytesTogether_composes (rm := as5600) 1 ltac:(lia)
              sensor_ready 0x0c ltac:(reflexivity)) as (_ & _ & H).
  apply H; reflexivity.
Defined.

Lemma together_equals_separately_witness :
  attached (rm := as5600) sensor_ready
  /\ attached (rm := as5600) sensor_no_magnet
  /\ (0 < 1)%nat
  /\ reg sensor_ready 0x0c = reg sensor_no_magnet 0x0c
  /\ reg sensor_ready (0x0c + 1) = reg sensor_no_magnet (0x0c + 1)
  /\ result (readTwoBytesTogether (rm := as5600) 1 0x0c) sensor_ready
     = Some 0x0A3C
  /\ result (readTwoBytesSeparately (rm := as5600) 1 0x0c) sensor_no_magnet
     = Some 0x0A3C.
Proof.
  split; [reflexivity|]. split; [reflexivity|]. split; [lia|].
  split; [reflexivity|]. split; [reflexivity|].
  exact (proj2 (together_equals_separately (rm := as5600) 1 ltac:(lia)
                  sensor_ready sensor_no_magnet 0x0c ltac:(reflexivity)
                  ltac:(reflexivity) ltac:(reflexivity) ltac:(reflexivity))).
Defined.

Lemma setOutPut_bits_witness :
  attached (rm := as5600) sensor_ready
  /\ (0 < 1)%nat
  /\ reg sensor_ready 0x08 = 0x2F
  /\ exists W,
       new_events (setOutPut (rm := as5600) 1 0) sensor_ready
       = Some [EvRead 8 [0x2F]; EvWrite 8 W]
       /\ W = 0x2F.
Proof.
  split; [reflexivity|]. split; [lia|]. split; [reflexivity|].
  destruct (setOutPut_bits (rm := as5600) 1 ltac:(lia) sensor_ready 0
              ltac:(reflexivity)) as (W & He & _ & _ & _ & _ & _ & H).
  exists W. split; [exact He|]. apply H; reflexivity.
Defined.

Lemma setters_read_back_setConf_only_writes_witness :
  attached (rm := as5600) sensor_ready
  /\ (0 < 1)%nat
  /\ commits_and_reads_back (setMaxAngle (rm := as5600) 1 0x0123)
                            sensor_ready [] 0x05 0x0123
  /\ new_events (setConf (rm := as5600) 0x0123) sensor_ready
     = Some [EvWrite 7 0x01; EvDelay 2; EvWrite 8 0x23; EvDelay 2].
Proof.
  split; [reflexivity|]. split; [lia|].
  destruct (setters_read_back_setConf_only_writes (rm := as5600) 1
              ltac:(lia) sensor_ready 0x0123 ltac:(reflexivity))
    as (H & _ & _ & _ & He).
  split; [exact H | exact He].
Defined.

Lemma sentinel_setters_witness :
  attached (rm := as5600) sensor_ready
  /\ (0 < 1)%nat
  /\ new_writes (setStartPosition (rm := as5600) 1 0x0ABC) sensor_ready
     = Some [(1, 0x0A); (2, 0xBC)]
  /\ new_writes (setStartPosition (rm := as5600) 1 0xFFFF) sensor_ready
     = Some [(1, 0x0A); (2, 0x3C)]
  /\ new_writes (setStartPosition (rm := as5600) 1 0xFFFF) sensor_ready
     <> Some [(1, 0xFF); (2, 0xFF)].
Proof.
  split; [reflexivity|]. split; [lia|].
  destruct (sentinel_setters (rm := as5600) 1 ltac:(lia) sensor_ready
              ltac:(reflexivity)) as (Hv & (_ & _ & Hs & _) & _ & Hn & _).
  split; [|split].
  - apply (Hv 0x0ABC); [lia | discriminate].
  - exact Hs.
  - apply (Hn ltac:(reflexivity) 0xFFFF). lia.
Defined.

(** * Further properties of the driver *)

(** ** Without a sensor *)

Section Unanswered.
Context {rm : RegisterMap}.
Variable fuel : nat.

Lemma readTwoBytesTogether_hangs (a : Z) (s : Bus) :
  ~ attached s -> readTwoBytesTogether fuel a s = None.
Proof.
  intro Hn. unfold attached in Hn.
  assert (E : (_ams5600_Address =? dev_addr s) = false)
    by (apply Z.eqb_neq; congruence).
  destruct s as [r d p t tx rx tr]. cbn [dev_addr] in E.
  unfold readTwoBytesTogether, bind, SoftWire.beginTransmission,
    SoftWire.write, SoftWire.endTransmission, SoftWire.requestFrom.
  cbn [regs dev_addr ptr target txbuf rxbuf trace].
  rewrite E. cbn [regs dev_addr ptr target txbuf rxbuf trace].
  rewrite E. now rewrite busy_wait_hangs.
Qed.

Lemma readTwoBytesSeparately_hangs (a : Z) (s : Bus) :
  ~ attached s -> readTwoBytesSeparately fuel a s = None.
Proof.
  intro Hn. unfold readTwoBytesSeparately, bind.
  now rewrite (readOneByte_hangs fuel a s Hn).
Qed.

Lemma writeOneByte_unanswered (a d : Z) (s : Bus) :
  ~ attached s -> writeOneByte a d s = Some (tt, seen_nothing s).
Proof.
  intro Hn. unfold attached in Hn.
  assert (E : (_ams5600_Address =? dev_addr s) = false)
    by (apply Z.eqb_neq; congruence).
  unfold writeOneByte, seen_nothing, bind, SoftWire.beginTransmission,
    SoftWire.write, SoftWire.endTransmission.
  cbn [regs dev_addr ptr target txbuf rxbuf trace].
  now rewrite E.
Qed.

Lemma setter_hangs (a v : Z) (s : Bus) :
  ~ attached s ->
  (_x <- (if v =? to_word (-1) then getRawAngle fuel else ret v) ;;
   writeOneByte a (highByte _x) ;;
   delay 2 ;;
   writeOneByte (a + 1) (lowByte _x) ;;
   delay 2 ;;
   r <- readTwoBytesSeparately fuel a ;;
   ret r) s = None.
Proof.
  intro Hn. unfold bind at 1.
  destruct (v =? to_word (-1)).
  - unfold getRawAngle. now rewrite readTwoBytesTogether_hangs.
  - unfold ret at 1. unfold bind.
    rewrite (writeOneByte_unanswered _ _ s Hn). unfold delay at 1.
    rewrite writeOneByte_unanswered by exact Hn. unfold delay at 1.
    now rewrite readTwoBytesSeparately_hangs by exact Hn.
Qed.

(** X1.  With no sensor at the driver's address, every operation that
    reads from the bus never returns, however often its busy-wait loop may
    test: the getters, the three angle setters (with an explicit value or
    with the sentinel), [setOutPut] and both burn operations. *)
Theorem reads_hang_without_sensor (s : Bus) (v mode : Z) :
  ~ attached s ->
  Forall (fun m => result m s = None)
         (getters fuel ++ read_modify_operations fuel v)
  /\ result (setOutPut fuel mode) s = None.
Proof.
  intro Hn.
  assert (H1 : forall a, readOneByte fuel a s = None)
    by (intro a; now apply readOneByte_hangs).
  assert (H2 : forall a, readTwoBytesTogether fuel a s = None)
    by (intro a; now apply readTwoBytesTogether_hangs).
  assert (H3 : forall a, readTwoBytesSeparately fuel a s = None)
    by (intro a; now apply readTwoBytesSeparately_hangs).
  split.
  - unfold getters, read_modify_operations. cbn [app].
    repeat apply Forall_cons; try apply Forall_nil; unfold result.
    + unfold getRawAngle. now rewrite H2.
    + unfold getScaledAngle. now rewrite H2.
    + unfold getMagnitude. now rewrite H2.
    + unfold getAgc. now rewrite H1.
    + unfold getConf. now rewrite H3.
    + unfold getMaxAngle. now rewrite H3.
    + unfold getStartPosition. now rewrite H3.
    + unfold getEndPosition, bind. now rewrite H3.
    + unfold getBurnCount. now rewrite H1.
    + unfold detectMagnet, bind. now rewrite H1.
    + unfold getMagnetStrength, bind. now rewrite H1.
    + assert (E : setMaxAngle fuel v s = None)
        by exact (setter_hangs _addr_mang v s Hn).
      now rewrite E.
    + assert (E : setStartPosition fuel v s = None)
        by exact (setter_hangs _addr_zpos v s Hn).
      now rewrite E.
    + assert (E : setEndPosition fuel v s = None)
        by exact (setter_hangs _addr_mpos v s Hn).
      now rewrite E.
    + unfold burnAngle, getStartPosition, bind. now rewrite H3.
    + unfold burnMaxAngleAndConfig, getMaxAngle, bind. now rewrite H3.
  - unfold result, setOutPut. cbv zeta. unfold bind. now rewrite H1.
Qed.

(** X2.  [setConf] reads nothing, so it returns also when no sensor
    answers: the two writes are lost without notice, no register changes
    and all the bus history shows is the two delays. *)
Theorem setConf_without_sensor (s : Bus) (v : Z) :
  ~ attached s ->
  new_events (setConf v) s = Some [EvDelay 2; EvDelay 2]
  /\ exists s', setConf v s = Some (tt, s') /\ regs s' = regs s.
Proof.
  intro Hn.
  assert (R : setConf v s
              = Some (tt, seen_delay
                            (seen_nothing (seen_delay (seen_nothing s) 2)) 2)).
  { unfold setConf, bind.
    rewrite (writeOneByte_unanswered _ _ s Hn). unfold delay at 1.
    now rewrite writeOneByte_unanswered by exact Hn. }
  split.
  - eapply outcome in R; [| unfold seen_nothing; trace_grows ].
    now destruct R as (_ & He & _).
  - eexists. split; [exact R | reflexivity].
Qed.
End Unanswered.

(** ** Bytes, words and the angle test *)

(** X5.  Splitting a word with [highByte] and [lowByte] and composing the
    two bytes as the reads do gives the word back, reduced to 16 bits; and
    composing two bytes and splitting the result gives the bytes back. *)
Theorem bytes_word_round_trip :
  (forall w, word_of_bytes (highByte w) (lowByte w) = to_word w)
  /\ (forall h l, 0 <= h < 256 -> 0 <= l < 256 ->
        highByte (word_of_bytes h l) = h /\ lowByte (word_of_bytes h l) = l).
Proof.
  split.
  - intro w.
    rewrite word_of_bytes_sum by (apply highByte_range || apply lowByte_range).
    unfold highByte, lowByte, to_uint8, to_word.
    rewrite Z.shiftr_div_pow2 by lia.
    change 0xff with (Z.ones 8). rewrite Z.land_ones by lia.
    change (2 ^ 8) with 256. rewrite Z.mod_mod by lia.
    change 65536 with (256 * 256). rewrite Z.rem_mul_r by lia. lia.
  - intros h l Hh Hl.
    assert (H : (highByte (word_of_bytes h l) =? h)
                && (lowByte (word_of_bytes h l) =? l) = true).
    { revert l Hl. apply forall_byte. revert h Hh. apply forall_byte.
      vm_compute. reflexivity. }
    apply andb_true_iff in H. now rewrite !Z.eqb_eq in H.
Qed.

(** X11.  The test [_maxAngle * 0.087 < 18] decides the same in single
    precision (the [double] of the AVR boards) and in double precision (the
    [double] of the 32-bit boards), on every 16-bit max angle: it holds
    exactly below 207. *)
Theorem below_18_degrees_same_in_single_and_double (w : Z) :
  0 <= w < 65536 ->
  Float.avr_below_18_degrees w = Float.b64_below_18_degrees w
  /\ Float.avr_below_18_degrees w = (w <? 207).
Proof.
  intro Hw.
  rewrite (avr_below_18_degrees_exact w Hw), (b64_below_18_degrees_exact w Hw).
  split; [reflexivity|].
  destruct (Z.ltb_spec (87 * w) 18000), (Z.ltb_spec w 207); try reflexivity; lia.
Qed.

(** ** With the sensor attached *)

Section MoreRuns.
Context {rm : RegisterMap}.
Variable fuel : nat.
Hypothesis fuel_pos : (0 < fuel)%nat.

(** X3.  The getters only read: each of them returns, writes to no
    register and leaves the register file as it was. *)
Theorem getters_are_read_only (s : Bus) :
  attached s ->
  Forall (fun m => new_writes m s = Some []
                   /\ exists r s', m s = Some (r, s') /\ regs s' = regs s)
         (getters fuel).
Proof.
  intro Ha.
  assert (G : forall (m : M Z) r s',
             m s = Some (r, s') -> regs s' = regs s ->
             (exists evs, trace s' = trace s ++ evs /\ writes evs = []) ->
             new_writes m s = Some []
             /\ exists r s', m s = Some (r, s') /\ regs s' = regs s).
  { intros m r s' Hm Hr (evs & Ht & Hw). split.
    - destruct (outcome m s s' r evs Hm Ht) as (_ & _ & H). now rewrite H, Hw.
    - now exists r, s'. }
  unfold getters.
  repeat apply Forall_cons; try apply Forall_nil.
  - eapply G; [exact (readTwoBytesTogether_run fuel fuel_pos _ s Ha) | reflexivity |].
    eexists; split; [trace_grows | reflexivity].
  - eapply G; [exact (readTwoBytesTogether_run fuel fuel_pos _ s Ha) | reflexivity |].
    eexists; split; [trace_grows | reflexivity].
  - eapply G; [exact (readTwoBytesTogether_run fuel fuel_pos _ s Ha) | reflexivity |].
    eexists; split; [trace_grows | reflexivity].
  - eapply G; [exact (readOneByte_run fuel fuel_pos _ s Ha) | reflexivity |].
    eexists; split; [trace_grows | reflexivity].
  - eapply G; [exact (readTwoBytesSeparately_run fuel fuel_pos _ s Ha) | reflexivity |].
    eexists; split; [trace_grows | reflexivity].
  - eapply G; [exact (readTwoBytesSeparately_run fuel fuel_pos _ s Ha) | reflexivity |].
    eexists; split; [trace_grows | reflexivity].
  - eapply G; [exact (readTwoBytesSeparately_run fuel fuel_pos _ s Ha) | reflexivity |].
    eexists; split; [trace_grows | reflexivity].
  - eapply G; [unfold getEndPosition, bind; rewrite (readTwoBytesSeparately_run fuel fuel_pos _ s Ha); reflexivity
              | reflexivity |].
    eexists; split; [trace_grows | reflexivity].
  - eapply G; [exact (readOneByte_run fuel fuel_pos _ s Ha) | reflexivity |].
    eexists; split; [trace_grows | reflexivity].
  - eapply G; [exact (detectMagnet_run fuel fuel_pos s Ha) | reflexivity |].
    eexists; split; [trace_grows | reflexivity].
  - eapply G; [exact (getMagnetStrength_run fuel fuel_pos s Ha) | reflexivity |].
    eexists; split; [trace_grows | reflexivity].
Qed.

(** X4.  The two-byte reads keep all sixteen bits: [getRawAngle],
    [getScaledAngle] and [getMagnitude] return [256 * hi + lo] for the full
    high byte, so a value of 4096 or more whenever the high byte is 16 or
    more; nothing is masked to the 12 bits of the sensor. *)
Theorem angle_reads_are_not_masked (s : Bus) :
  attached s ->
  let full (m : M Z) (a : Z) :=
    result m s = Some (reg s a * 256 + reg s (a + 1))
    /\ 0 <= reg s a * 256 + reg s (a + 1) < 65536
    /\ (reg s a * 256 + reg s (a + 1) < 4096 <-> reg s a < 16) in
  full (getRawAngle fuel) _addr_raw_angle
  /\ full (getScaledAngle fuel) _addr_angle
  /\ full (getMagnitude fuel) _addr_magnitude.
Proof.
  intro Ha.
  assert (G : forall a,
             result (readTwoBytesTogether fuel a) s
             = Some (reg s a * 256 + reg s (a + 1))
             /\ 0 <= reg s a * 256 + reg s (a + 1) < 65536
             /\ (reg s a * 256 + reg s (a + 1) < 4096 <-> reg s a < 16)).
  { intro a. unfold result.
    rewrite (readTwoBytesTogether_run fuel fuel_pos a s Ha).
    pose proof (to_uint8_range (regs s (to_uint8 a))).
    pose proof (to_uint8_range (regs s (to_uint8 (a + 1)))).
    unfold reg16, reg. repeat split; lia. }
  cbv zeta. split; [|split]; apply G.
Qed.

Lemma bind_ret_r {A : Type} (m : M A) (s : Bus) :
  (x <- m ;; ret x) s = m s.
Proof. unfold bind, ret. now destruct (m s) as [[a s']|]. Qed.

(** The registers after a byte was stored. *)
Lemma reg_seen_write (s : Bus) (p d b : Z) :
  reg (seen_write s p d) b = if to_uint8 b =? p then to_uint8 d else reg s b.
Proof.
  unfold reg, seen_write, upd. cbn [regs].
  now destruct (to_uint8 b =? p).
Qed.

(** The registers after the two-register write of [x] at [a]. *)
Lemma reg_after_pair_write (s : Bus) (a x b : Z) :
  reg (seen_delay
         (seen_write (seen_delay (seen_write s (to_uint8 a) (highByte x)) 2)
                     (to_uint8 (a + 1)) (lowByte x)) 2) b
  = if to_uint8 b =? to_uint8 (a + 1) then lowByte x
    else if to_uint8 b =? to_uint8 a then highByte x
    else reg s b.
Proof.
  change (reg (seen_delay ?t 2) b) with (reg t b).
  rewrite reg_seen_write.
  change (reg (seen_delay ?t 2) b) with (reg t b).
  rewrite reg_seen_write.
  now rewrite (to_uint8_small _ (highByte_range x)),
    (to_uint8_small _ (lowByte_range x)).
Qed.

Lemma reg16_after_pair_write (s : Bus) (a x : Z) :
  0 <= x < 65536 ->
  reg16 (seen_delay
           (seen_write (seen_delay (seen_write s (to_uint8 a) (highByte x)) 2)
                       (to_uint8 (a + 1)) (lowByte x)) 2) a
  = x.
Proof.
  intro Hx. unfold reg16. rewrite !reg_after_pair_write.
  rewrite Z.eqb_refl.
  destruct (Z.eqb_spec (to_uint8 a) (to_uint8 (a + 1))) as [E|_].
  - symmetry in E. now apply to_uint8_succ_neq in E.
  - rewrite Z.eqb_refl. now apply bytes_of_word.
Qed.

Lemma setConf_run (v : Z) (s : Bus) :
  attached s ->
  setConf v s
  = Some (tt, seen_delay
                (seen_write
                   (seen_delay
                      (seen_write s (to_uint8 _addr_conf) (highByte v)) 2)
                   (to_uint8 (_addr_conf + 1)) (lowByte v)) 2).
Proof.
  intro Ha. unfold setConf, bind.
  rewrite (writeOneByte_run _ _ s Ha).
  rewrite (to_uint8_small _ (highByte_range v)).
  unfold delay at 1.
  rewrite writeOneByte_run by exact Ha.
  now rewrite (to_uint8_small _ (lowByte_range v)).
Qed.

(** X6.  [getConf] after [setConf v] returns [v], for every 12-bit [v],
    the width of the config value: the setter and the getter agree on the
    byte order of the register pair.  On these values a sensor that keeps
    12 bits of the pair and one that keeps all 16 store the same. *)
Theorem setConf_getConf_round_trip (s : Bus) (v : Z) :
  attached s ->
  0 <= v < 4096 ->
  result (setConf v ;; getConf fuel) s = Some v.
Proof.
  intros Ha Hv. unfold result, getConf, bind.
  rewrite (setConf_run v s Ha).
  rewrite (readTwoBytesSeparately_run fuel fuel_pos) by exact Ha.
  rewrite reg16_after_pair_write by lia. reflexivity.
Qed.

Lemma setter_result (a v : Z) (s : Bus) :
  attached s ->
  0 <= v < 65536 ->
  let m :=
    (_x <- (if v =? to_word (-1) then getRawAngle fuel else ret v) ;;
     writeOneByte a (highByte _x) ;;
     delay 2 ;;
     writeOneByte (a + 1) (lowByte _x) ;;
     delay 2 ;;
     r <- readTwoBytesSeparately fuel a ;;
     ret r) in
  result m s = Some (value_to_write s v)
  /\ result (m ;; readTwoBytesSeparately fuel a) s
     = Some (value_to_write s v).
Proof.
  intros Ha Hv m.
  pose proof (setter_run fuel fuel_pos a v s Ha) as R. cbv zeta in R.
  fold m in R.
  pose proof (value_to_write_range fuel fuel_pos s v Hv) as Hx.
  set (s0 := if v =? 0xFFFF then seen_word_read s _addr_raw_angle else s) in R.
  assert (Ha0 : attached s0) by (unfold s0; now destruct (v =? 0xFFFF)).
  rewrite (reg16_after_pair_write s0 a _ Hx) in R.
  split.
  - unfold result. now rewrite R.
  - unfold result, bind. rewrite R.
    rewrite (readTwoBytesSeparately_run fuel fuel_pos) by exact Ha0.
    change (reg16 (seen_pair_read ?t a) a) with (reg16 t a).
    now rewrite (reg16_after_pair_write s0 a _ Hx).
Qed.

(** X7.  When the value to write is a 12-bit value, the width of the
    angle registers, [setMaxAngle], [setStartPosition] and
    [setEndPosition] return that value, and the matching getter called
    next returns it too.  The value to write is the argument, or the raw
    angle captured for the sentinel.  On these values a sensor that keeps
    12 bits of the pair and one that keeps all 16 store the same. *)
Theorem setters_return_what_they_wrote (s : Bus) (v : Z) :
  attached s ->
  0 <= v < 65536 ->
  let x := value_to_write s v in
  x < 4096 ->
  (v <> 0xFFFF -> x = v)
  /\ result (setMaxAngle fuel v) s = Some x
  /\ result (setStartPosition fuel v) s = Some x
  /\ result (setEndPosition fuel v) s = Some x
  /\ result (setMaxAngle fuel v ;; getMaxAngle fuel) s = Some x
  /\ result (setStartPosition fuel v ;; getStartPosition fuel) s = Some x
  /\ result (setEndPosition fuel v ;; getEndPosition fuel) s = Some x.
Proof.
  intros Ha Hv x _.
  destruct (setter_result _addr_mang v s Ha Hv) as (M1 & M2).
  destruct (setter_result _addr_zpos v s Ha Hv) as (Z1 & Z2).
  destruct (setter_result _addr_mpos v s Ha Hv) as (E1 & E2).
  split.
  { intro Hn. unfold x, value_to_write. apply Z.eqb_neq in Hn. now rewrite Hn. }
  repeat split; try assumption.
  change (result (setEndPosition fuel v ;;
                  readTwoBytesSeparately fuel _addr_mpos) s = Some x) in E2.
  unfold result, bind in E2 |- *.
  destruct (setEndPosition fuel v s) as [[r s']|]; [|discriminate E2].
  unfold getEndPosition. now rewrite bind_ret_r.
Qed.

Lemma with_outmode_byte (L mode : Z) :
  0 <= L < 256 -> 0 <= with_outmode L mode < 256.
Proof.
  intro HL. unfold with_outmode.
  set (m := if mode =? 0 then 0x20 else if mode =? 2 then 0x10 else 0).
  assert (Hm : m = 0 \/ m = 0x20 \/ m = 0x10).
  { unfold m. destruct (mode =? 0); [|destruct (mode =? 2)]; auto. }
  rewrite <- (outmode_byte L m HL Hm). apply to_uint8_range.
Qed.

Lemma with_outmode_twice (L m1 m2 : Z) :
  0 <= L < 256 -> with_outmode (with_outmode L m1) m2 = with_outmode L m2.
Proof.
  intro HL. unfold with_outmode. apply Z.eqb_eq.
  destruct (m1 =? 0); [|destruct (m1 =? 2)];
    (destruct (m2 =? 0); [|destruct (m2 =? 2)]);
    revert L HL; apply forall_byte; vm_compute; reflexivity.
Qed.

Lemma setOutPut_regs (mode : Z) (s : Bus) :
  attached s ->
  exists s',
    setOutPut fuel mode s = Some (tt, s')
    /\ attached s'
    /\ forall b,
         reg s' b = if to_uint8 b =? to_uint8 (_addr_conf + 1)
                    then with_outmode (reg s (_addr_conf + 1)) mode
                    else reg s b.
Proof.
  intro Ha.
  exists (seen_write (seen_byte_read s (_addr_conf + 1))
                     (to_uint8 (_addr_conf + 1))
                     (with_outmode (reg s (_addr_conf + 1)) mode)).
  split; [exact (setOutPut_run fuel fuel_pos mode s Ha)|].
  split; [exact Ha|]. intro b. rewrite reg_seen_write.
  rewrite (to_uint8_small (with_outmode _ _))
    by (apply with_outmode_byte; apply to_uint8_range).
  reflexivity.
Qed.

(** X9.  On a sensor that stores the bytes written to it, [getConf] after
    [setOutPut] returns the old config with only the output-mode field of
    the low byte replaced, and of two [setOutPut] calls in a row the last
    one alone decides: an earlier mode leaves no trace. *)
Theorem setOutPut_then_getConf (s : Bus) (m1 m2 : Z) :
  attached s ->
  let hi := reg s _addr_conf in
  let lo := reg s (_addr_conf + 1) in
  result (setOutPut fuel m2 ;; getConf fuel) s
  = Some (hi * 256 + with_outmode lo m2)
  /\ result (setOutPut fuel m1 ;; setOutPut fuel m2 ;; getConf fuel) s
     = Some (hi * 256 + with_outmode lo m2).
Proof.
  intros Ha hi lo.
  assert (G : forall mode t, attached t ->
            exists t', setOutPut fuel mode t = Some (tt, t') /\ attached t'
              /\ reg t' _addr_conf = reg t _addr_conf
              /\ reg t' (_addr_conf + 1)
                 = with_outmode (reg t (_addr_conf + 1)) mode).
  { intros mode t Ht. destruct (setOutPut_regs mode t Ht) as (t' & E & At & F).
    exists t'. split; [exact E|]. split; [exact At|]. split.
    - rewrite F. destruct (Z.eqb_spec (to_uint8 _addr_conf)
                                      (to_uint8 (_addr_conf + 1))) as [C|_];
        [|reflexivity].
      symmetry in C. now apply to_uint8_succ_neq in C.
    - rewrite F. now rewrite Z.eqb_refl. }
  split.
  - destruct (G m2 s Ha) as (t & E & At & Hh & Hl).
    unfold result, bind, getConf. rewrite E.
    rewrite (readTwoBytesSeparately_run fuel fuel_pos) by exact At.
    unfold reg16. now rewrite Hh, Hl.
  - destruct (G m1 s Ha) as (t & E & At & Hh & Hl).
    destruct (G m2 t At) as (u & E' & Au & Hh' & Hl').
    unfold result, bind, getConf. rewrite E, E'.
    rewrite (readTwoBytesSeparately_run fuel fuel_pos) by exact Au.
    unfold reg16. rewrite Hh', Hl', Hh, Hl.
    now rewrite with_outmode_twice by apply to_uint8_range.
Qed.

(** X8.  No operation writes to a register that is not its own: the bus
    sees [setConf] and the angle setters write to the two registers of
    their pair only, [setOutPut] to the config low byte only, and the burn
    operations to the burn register only, in every state of an attached
    sensor and for every argument. *)
Theorem writes_touch_only_their_registers (s : Bus) (v mode : Z) :
  attached s ->
  let within {A : Type} (m : M A) (targets : list Z) :=
    exists ws, new_writes m s = Some ws
               /\ Forall (fun w => In (fst w) targets) ws in
  within (setConf v) [to_uint8 _addr_conf; to_uint8 (_addr_conf + 1)]
  /\ within (setMaxAngle fuel v)
            [to_uint8 _addr_mang; to_uint8 (_addr_mang + 1)]
  /\ within (setStartPosition fuel v)
            [to_uint8 _addr_zpos; to_uint8 (_addr_zpos + 1)]
  /\ within (setEndPosition fuel v)
            [to_uint8 _addr_mpos; to_uint8 (_addr_mpos + 1)]
  /\ within (setOutPut fuel mode) [to_uint8 (_addr_conf + 1)]
  /\ within (burnAngle fuel) [to_uint8 _addr_burn]
  /\ within (burnMaxAngleAndConfig fuel) [to_uint8 _addr_burn].
Proof.
  intros Ha within. unfold within.
  assert (P : forall a x,
             Forall (fun w : Z * Z =>
                       In (fst w) [to_uint8 a; to_uint8 (a + 1)])
                    [(to_uint8 a, highByte x); (to_uint8 (a + 1), lowByte x)]).
  { intros a x.
    repeat (apply Forall_cons; [cbn [fst In]; tauto|]). apply Forall_nil. }
  split; [|split; [|split; [|split; [|split; [|split]]]]].
  - pose proof (setConf_run v s Ha) as R.
    eapply outcome in R; [| trace_grows ]. destruct R as (_ & _ & Hw).
    eexists. split; [exact Hw|]. apply P.
  - eexists. split; [exact (proj2 (setter_spec fuel fuel_pos _addr_mang v s Ha))|].
    apply P.
  - eexists. split; [exact (proj2 (setter_spec fuel fuel_pos _addr_zpos v s Ha))|].
    apply P.
  - eexists. split; [exact (proj2 (setter_spec fuel fuel_pos _addr_mpos v s Ha))|].
    apply P.
  - pose proof (setOutPut_run fuel fuel_pos mode s Ha) as R. cbv zeta in R.
    eapply outcome in R; [| trace_grows ]. destruct R as (_ & _ & Hw).
    eexists. split; [exact Hw|].
    cbn [writes flat_map app].
    repeat (apply Forall_cons; [cbn [fst In]; tauto|]). apply Forall_nil.
  - pose proof (burnAngle_run fuel fuel_pos s Ha) as R. cbv zeta in R.
    destruct (Z.testbit (reg s _addr_status) 5);
      [destruct (reg s _addr_zmco <? 3);
       [destruct ((reg16 s _addr_zpos =? 0) && (reg16 s _addr_mpos =? 0))|]|];
      (eapply outcome in R; [| trace_grows ]); destruct R as (_ & _ & Hw);
      (eexists; split; [exact Hw|]);
      cbn [writes flat_map app];
      repeat (apply Forall_cons; [cbn [fst In]; tauto|]); apply Forall_nil.
  - pose proof (burnMaxAngleAndConfig_run fuel fuel_pos s Ha) as R.
    cbv zeta in R.
    destruct (reg s _addr_zmco =? 0);
      [destruct (87 * reg16 s _addr_mang <? 18000)|];
      (eapply outcome in R; [| trace_grows ]); destruct R as (_ & _ & Hw);
      (eexists; split; [exact Hw|]);
      cbn [writes flat_map app];
      repeat (apply Forall_cons; [cbn [fst In]; tauto|]); apply Forall_nil.
Qed.

(** X10.  [burnAngle] reads the max angle but does not use it: its result
    and its register writes are the same on any two sensors that agree on
    the status register, the burn count and the start and end position
    pairs. *)
Theorem burnAngle_depends_only_on (s1 s2 : Bus) :
  attached s1 -> attached s2 ->
  (forall a, In a [_addr_status; _addr_zmco; _addr_zpos; _addr_zpos + 1;
                   _addr_mpos; _addr_mpos + 1] ->
             reg s1 a = reg s2 a) ->
  result (burnAngle fuel) s1 = result (burnAngle fuel) s2
  /\ new_writes (burnAngle fuel) s1 = new_writes (burnAngle fuel) s2.
Proof.
  intros H1 H2 E.
  pose proof (burnAngle_run fuel fuel_pos s1 H1) as R1. cbv zeta in R1.
  pose proof (burnAngle_run fuel fuel_pos s2 H2) as R2. cbv zeta in R2.
  unfold reg16 in R1, R2.
  rewrite !E in R1 by (cbn [In]; tauto).
  destruct (Z.testbit (reg s2 _addr_status) 5);
    [destruct (reg s2 _addr_zmco <? 3);
     [destruct ((reg s2 _addr_zpos * 256 + reg s2 (_addr_zpos + 1) =? 0)
                && (reg s2 _addr_mpos * 256 + reg s2 (_addr_mpos + 1) =? 0))
     |]|];
    (eapply outcome in R1; [| trace_grows ]);
    (eapply outcome in R2; [| trace_grows ]);
    destruct R1 as (A1 & _ & B1); destruct R2 as (A2 & _ & B2);
    rewrite A1, A2, B1, B2; split; reflexivity.
Qed.

(** X12.  [burnAngle] always reads the start position, the end position
    and the max angle pairs and then the status register, in that order.
    Without a magnet it stops there: the burn count is not read.  With a
    magnet it reads the burn count next, and the only thing that can
    follow is the write of 0x80 to the burn register. *)
Theorem burnAngle_bus_traffic (s : Bus) :
  attached s ->
  let rd (a : Z) := EvRead (to_uint8 a) [reg s a] in
  let reads :=
    [rd _addr_zpos; rd (_addr_zpos + 1); rd _addr_mpos; rd (_addr_mpos + 1);
     rd _addr_mang; rd (_addr_mang + 1); rd _addr_status] in
  (Z.testbit (reg s _addr_status) 5 = false ->
   new_events (burnAngle fuel) s = Some reads)
  /\ (Z.testbit (reg s _addr_status) 5 = true ->
      exists tail,
        new_events (burnAngle fuel) s
        = Some (reads ++ rd _addr_zmco :: tail)
        /\ (tail = [] \/ tail = [EvWrite (to_uint8 _addr_burn) 0x80])).
Proof.
  intros Ha rd reads.
  pose proof (burnAngle_run fuel fuel_pos s Ha) as R. cbv zeta in R.
  split; intro Hd; rewrite Hd in R.
  - eapply outcome in R; [| trace_grows ]. now destruct R as (_ & He & _).
  - destruct (reg s _addr_zmco <? 3);
      [destruct ((reg16 s _addr_zpos =? 0) && (reg16 s _addr_mpos =? 0))|];
      (eapply outcome in R; [| trace_grows ]); destruct R as (_ & He & _);
      eexists; (split; [exact He|]); auto.
Qed.

End MoreRuns.

(** ** The further properties on the concrete sensor *)

Lemma reads_hang_without_sensor_witness :
  ~ attached (rm := as5600) sensor_absent
  /\ result (getRawAngle (rm := as5600) 1000) sensor_absent = None
  /\ result (setOutPut (rm := as5600) 1000 0) sensor_absent = None.
Proof.
  assert (Hn : ~ attached (rm := as5600) sensor_absent)
    by (intro H; discriminate H).
  split; [exact Hn|].
  destruct (reads_hang_without_sensor (rm := as5600) 1000 sensor_absent
              0x0123 0 Hn) as [Hall Hout].
  split; [exact (Forall_inv Hall) | exact Hout].
Defined.

Lemma setConf_without_sensor_witness :
  ~ attached (rm := as5600) sensor_absent
  /\ new_events (setConf (rm := as5600) 0x0123) sensor_absent
     = Some [EvDelay 2; EvDelay 2].
Proof.
  assert (Hn : ~ attached (rm := as5600) sensor_absent)
    by (intro H; discriminate H).
  split; [exact Hn|].
  exact (proj1 (setConf_without_sensor (rm := as5600) sensor_absent 0x0123
                  Hn)).
Defined.

Lemma getters_are_read_only_witness :
  attached (rm := as5600) sensor_ready
  /\ (0 < 1)%nat
  /\ new_writes (getRawAngle (rm := as5600) 1) sensor_ready = Some [].
Proof.
  split; [reflexivity|]. split; [lia|].
  exact (proj1 (Forall_inv
                  (getters_are_read_only (rm := as5600) 1 ltac:(lia)
                     sensor_ready ltac:(reflexivity)))).
Defined.

Lemma angle_reads_are_not_masked_witness :
  attached (rm := as5600) sensor_fine
  /\ (0 < 1)%nat
  /\ result (getRawAngle (rm := as5600) 1) sensor_fine = Some 0x1A3C.
Proof.
  split; [reflexivity|]. split; [lia|].
  exact (proj1 (proj1 (angle_reads_are_not_masked (rm := as5600) 1
                         ltac:(lia) sensor_fine ltac:(reflexivity)))).
Defined.

Lemma below_18_degrees_same_in_single_and_double_witness :
  0 <= 207 < 65536
  /\ Float.avr_below_18_degrees 207 = Float.b64_below_18_degrees 207
  /\ Float.avr_below_18_degrees 207 = false.
Proof.
  split; [lia|].
  exact (below_18_degrees_same_in_single_and_double 207 ltac:(lia)).
Defined.

Lemma setConf_getConf_round_trip_witness :
  attached (rm := as5600) sensor_ready
  /\ (0 < 1)%nat
  /\ 0 <= 0x0234 < 4096
  /\ result (setConf (rm := as5600) 0x0234 ;; getConf (rm := as5600) 1)
            sensor_ready = Some 0x0234.
Proof.
  split; [reflexivity|]. split; [lia|]. split; [lia|].
  exact (setConf_getConf_round_trip (rm := as5600) 1 ltac:(lia) sensor_ready
           0x0234 ltac:(reflexivity) ltac:(lia)).
Defined.

Lemma setters_return_what_they_wrote_witness :
  attached (rm := as5600) sensor_ready
  /\ (0 < 1)%nat
  /\ 0 <= 0x0123 < 65536
  /\ value_to_write (rm := as5600) sensor_ready 0x0123 < 4096
  /\ result (setMaxAngle (rm := as5600) 1 0x0123) sensor_ready = Some 0x0123
  /\ result (setMaxAngle (rm := as5600) 1 0x0123 ;;
             getMaxAngle (rm := as5600) 1) sensor_ready = Some 0x0123.
Proof.
  split; [reflexivity|]. split; [lia|]. split; [lia|].
  split; [reflexivity|].
  destruct (setters_return_what_they_wrote (rm := as5600) 1 ltac:(lia)
              sensor_ready 0x0123 ltac:(reflexivity) ltac:(lia)
              ltac:(reflexivity))
    as (_ & H1 & _ & _ & H2 & _).
  split; [exact H1 | exact H2].
Defined.

Lemma setOutPut_then_getConf_witness :
  attached (rm := as5600) sensor_ready
  /\ (0 < 1)%nat
  /\ result (setOutPut (rm := as5600) 1 0 ;; setOutPut (rm := as5600) 1 2 ;;
             getConf (rm := as5600) 1) sensor_ready = Some 0x1F.
Proof.
  split; [reflexivity|]. split; [lia|].
  exact (proj2 (setOutPut_then_getConf (rm := as5600) 1 ltac:(lia)
                  sensor_ready 0 2 ltac:(reflexivity))).
Defined.

Lemma writes_touch_only_their_registers_witness :
  attached (rm := as5600) sensor_ready
  /\ (0 < 1)%nat
  /\ exists ws,
       new_writes (burnAngle (rm := as5600) 1) sensor_ready = Some ws
       /\ Forall (fun w => In (fst w) [0xff]) ws.
Proof.
  split; [reflexivity|]. split; [lia|].
  exact (proj1 (proj2 (proj2 (proj2 (proj2 (proj2
           (writes_touch_only_their_registers (rm := as5600) 1 ltac:(lia)
              sensor_ready 0x1234 0 ltac:(reflexivity)))))))).
Defined.

Lemma burnAngle_depends_only_on_witness :
  attached (rm := as5600) sensor_ready
  /\ attached (rm := as5600) (sensor [(0x0b, 0x20); (0x01, 0x01); (0x05, 0x0F)])
  /\ (0 < 1)%nat
  /\ result (burnAngle (rm := as5600) 1) sensor_ready
     = result (burnAngle (rm := as5600) 1)
              (sensor [(0x0b, 0x20); (0x01, 0x01); (0x05, 0x0F)]).
Proof.
  split; [reflexivity|]. split; [reflexivity|]. split; [lia|].
  refine (proj1 (burnAngle_depends_only_on (rm := as5600) 1 ltac:(lia)
                   sensor_ready
                   (sensor [(0x0b, 0x20); (0x01, 0x01); (0x05, 0x0F)])
                   ltac:(reflexivity) ltac:(reflexivity) _)).
  intros a [<- | [<- | [<- | [<- | [<- | [<- | []]]]]]]; reflexivity.
Defined.

Lemma burnAngle_bus_traffic_witness :
  attached (rm := as5600) sensor_no_magnet
  /\ (0 < 1)%nat
  /\ new_events (burnAngle (rm := as5600) 1) sensor_no_magnet
     = Some [EvRead 1 [1]; EvRead 2 [0]; EvRead 3 [0]; EvRead 4 [0];
             EvRead 5 [4]; EvRead 6 [0]; EvRead 11 [0]].
Proof.
  split; [reflexivity|]. split; [lia|].
  exact (proj1 (burnAngle_bus_traffic (rm := as5600) 1 ltac:(lia)
                  sensor_no_magnet ltac:(reflexivity))
               ltac:(reflexivity)).
Defined.
